(** * Blood bank marketplace: order / inventory reservation workflow

    A shallow embedding of the database workflows of [bloodbank.py]:
    the relational schema as records and row lists, the SQL statements the
    handlers issue as functions on tables, pymysql connections as an explicit
    uncommitted view next to the committed tables, and the Streamlit handlers
    as functions from the state of the world to an outcome and a new state. *)

From Stdlib Require Import List ZArith NArith Bool Lia.
From Stdlib Require Import Strings.String Strings.Ascii.
Import ListNotations.

Set Implicit Arguments.

(* ------------------------------------------------------------------ *)
(** ** Schema (SCHEMA_TABLES_SQL) *)

(** Identifiers are [BIGINT UNSIGNED] ([N]); [DECIMAL(_,2)] amounts are kept
    in hundredths ([Z]); [DATETIME] values are seconds ([Z]) and [DATE]
    values are days ([Z]) of the session time zone. *)

Inductive BatchStatus := available | reserved | sold | expired | quarantined.
Inductive OrderStatus :=
  placed | confirmed | preparing | shipped | delivered | cancelled | refunded.
Inductive PaymentMethod := bank_transfer | card | upi | cod | wallet.
Inductive PaymentStatus := pending | completed | failed | payment_refunded.
Inductive Quality := quality_A | quality_B | quality_C.
Inductive TestResult := test_pass | test_fail | test_pending.

Record BloodType := { bt_id : N; bt_code : string }.

Record Retailer := { r_retailer_id : N; r_name : string; r_city : option string }.

Record Donor := {
  d_donor_id : N;
  d_full_name : string;
  d_phone : option string;
  d_blood_type_id : N }.

Record Donation := {
  dn_donation_id : N;
  dn_donor_id : option N;
  dn_retailer_id : N;
  dn_collected_at : Z;
  dn_volume_ml : N;
  dn_tested : bool;
  dn_test_result : TestResult }.

Record InventoryBatch := {
  b_batch_id : N;
  b_donation_id : option N;
  b_retailer_id : N;
  b_blood_type_id : N;
  b_quantity_ml : N;
  b_unit_count : N;
  b_quality : Quality;
  b_status : BatchStatus;
  b_price_per_unit : Z;
  b_collected_at : option Z;
  b_expiry_date : option Z }.

Record Order := {
  o_order_id : N;
  o_customer_id : N;
  o_retailer_id : option N;
  o_total_amount : Z;
  o_status : OrderStatus;
  o_placed_at : Z;
  o_modified_at : option Z;
  o_notes : option string }.

Record OrderItem := {
  oi_order_item_id : N;
  oi_order_id : N;
  oi_batch_id : N;
  oi_blood_type_id : N;
  oi_quantity_ml : N;
  oi_unit_price : Z;
  oi_subtotal : Z }.

Record Payment := {
  p_payment_id : N;
  p_order_id : N;
  p_amount : Z;
  p_method : PaymentMethod;
  p_status : PaymentStatus }.

(** The rows of every table, in primary-key (insertion) order. *)
Record Tables := {
  blood_types : list BloodType;
  retailers : list Retailer;
  donors : list Donor;
  donations : list Donation;
  inventory_batches : list InventoryBatch;
  orders : list Order;
  order_items : list OrderItem;
  payments : list Payment }.

(** AUTO_INCREMENT counters.  They belong to the server, not to a
    transaction: a value handed out inside a transaction that is rolled back
    is not handed out again. *)
Record Counters := {
  next_donor_id : N;
  next_donation_id : N;
  next_batch_id : N;
  next_order_id : N;
  next_order_item_id : N;
  next_payment_id : N }.

Record Server := { committed : Tables; autoinc : Counters }.

(* ------------------------------------------------------------------ *)
(** ** Decidable equality on the enumerations *)

Definition batch_status_eqb (a b : BatchStatus) : bool :=
  match a, b with
  | available, available | reserved, reserved | sold, sold
  | expired, expired | quarantined, quarantined => true
  | _, _ => false
  end.

Definition order_status_eqb (a b : OrderStatus) : bool :=
  match a, b with
  | placed, placed | confirmed, confirmed | preparing, preparing
  | shipped, shipped | delivered, delivered | cancelled, cancelled
  | refunded, refunded => true
  | _, _ => false
  end.

Definition payment_status_eqb (a b : PaymentStatus) : bool :=
  match a, b with
  | pending, pending | completed, completed | failed, failed
  | payment_refunded, payment_refunded => true
  | _, _ => false
  end.

(* ------------------------------------------------------------------ *)
(** ** Row and table updates *)

Definition set_b_status (st : BatchStatus) (b : InventoryBatch) : InventoryBatch :=
  {| b_batch_id := b_batch_id b; b_donation_id := b_donation_id b;
     b_retailer_id := b_retailer_id b; b_blood_type_id := b_blood_type_id b;
     b_quantity_ml := b_quantity_ml b; b_unit_count := b_unit_count b;
     b_quality := b_quality b; b_status := st;
     b_price_per_unit := b_price_per_unit b;
     b_collected_at := b_collected_at b; b_expiry_date := b_expiry_date b |}.

Definition set_o_status (st : OrderStatus) (now : Z) (o : Order) : Order :=
  {| o_order_id := o_order_id o; o_customer_id := o_customer_id o;
     o_retailer_id := o_retailer_id o; o_total_amount := o_total_amount o;
     o_status := st; o_placed_at := o_placed_at o;
     o_modified_at := Some now; o_notes := o_notes o |}.

Definition set_p_paid (st : PaymentStatus) (m : PaymentMethod) (p : Payment) : Payment :=
  {| p_payment_id := p_payment_id p; p_order_id := p_order_id p;
     p_amount := p_amount p; p_method := m; p_status := st |}.

Definition with_donors (l : list Donor) (t : Tables) : Tables :=
  {| blood_types := blood_types t; retailers := retailers t; donors := l;
     donations := donations t; inventory_batches := inventory_batches t;
     orders := orders t; order_items := order_items t; payments := payments t |}.

Definition with_donations (l : list Donation) (t : Tables) : Tables :=
  {| blood_types := blood_types t; retailers := retailers t; donors := donors t;
     donations := l; inventory_batches := inventory_batches t;
     orders := orders t; order_items := order_items t; payments := payments t |}.

Definition with_inventory_batches (l : list InventoryBatch) (t : Tables) : Tables :=
  {| blood_types := blood_types t; retailers := retailers t; donors := donors t;
     donations := donations t; inventory_batches := l;
     orders := orders t; order_items := order_items t; payments := payments t |}.

Definition with_orders (l : list Order) (t : Tables) : Tables :=
  {| blood_types := blood_types t; retailers := retailers t; donors := donors t;
     donations := donations t; inventory_batches := inventory_batches t;
     orders := l; order_items := order_items t; payments := payments t |}.

Definition with_order_items (l : list OrderItem) (t : Tables) : Tables :=
  {| blood_types := blood_types t; retailers := retailers t; donors := donors t;
     donations := donations t; inventory_batches := inventory_batches t;
     orders := orders t; order_items := l; payments := payments t |}.

Definition with_payments (l : list Payment) (t : Tables) : Tables :=
  {| blood_types := blood_types t; retailers := retailers t; donors := donors t;
     donations := donations t; inventory_batches := inventory_batches t;
     orders := orders t; order_items := order_items t; payments := l |}.

(** [UPDATE t SET ... WHERE cond]: every row satisfying [cond] is rewritten. *)
Definition update_where {A} (cond : A -> bool) (f : A -> A) (rows : list A) : list A :=
  map (fun r => if cond r then f r else r) rows.

(* ------------------------------------------------------------------ *)
(** ** Connections ([get_conn], [cur.execute], [conn.commit], ...) *)

(** What a request meets outside the program: which of its database
    interactions raise a pymysql exception (constraint violation, lock wait
    timeout, lost connection), and the time at which each one runs.
    Interactions are numbered in program order within a handler. *)
Record Env := { fault : nat -> bool; clock : nat -> Z }.

Inductive DbError := PersistenceError (interaction : nat).

(** A connection opened with [autocommit=False]: the server it talks to and
    the uncommitted view of its transaction. *)
Record Conn := { conn_server : Server; conn_view : Tables }.

Definition get_conn (s : Server) : Conn :=
  {| conn_server := s; conn_view := committed s |}.

Definition conn_commit_now (c : Conn) : Conn :=
  {| conn_server := {| committed := conn_view c; autoinc := autoinc (conn_server c) |};
     conn_view := conn_view c |}.

Definition conn_rollback (c : Conn) : Conn :=
  {| conn_server := conn_server c; conn_view := committed (conn_server c) |}.

(** Closing a connection (or abandoning it) discards what is uncommitted. *)
Definition conn_close (c : Conn) : Server := conn_server c.

(** Cursor code: a computation on a connection that may raise. *)
Definition Tx (A : Type) : Type := Conn -> (DbError + A) * Conn.

Definition ret {A} (a : A) : Tx A := fun c => (inr a, c).

Definition bind {A B} (m : Tx A) (k : A -> Tx B) : Tx B :=
  fun c =>
    match m c with
    | (inr a, c') => k a c'
    | (inl e, c') => (inl e, c')
    end.

Notation "x <- m ;; k" := (bind m (fun x => k))
  (at level 61, m at next level, right associativity).
Notation "m ;;; k" := (bind m (fun _ => k))
  (at level 61, right associativity).

(** A statement sees the time [NOW()] and the connection. *)
Definition Stmt (A : Type) : Type := Z -> Conn -> A * Conn.

(** [cur.execute(...)] as the [i]-th interaction of the request. *)
Definition cur_execute {A} (env : Env) (i : nat) (q : Stmt A) : Tx A :=
  fun c =>
    if fault env i then (inl (PersistenceError i), c)
    else let (a, c') := q (clock env i) c in (inr a, c').

(** [conn.commit()] as the [i]-th interaction. *)
Definition conn_commit (env : Env) (i : nat) : Tx unit :=
  fun c =>
    if fault env i then (inl (PersistenceError i), c)
    else (inr tt, conn_commit_now c).

(** The helper [execute]: one statement on a connection of its own with
    [autocommit=True]. *)
Definition execute (env : Env) (i : nat) (q : Stmt unit) (s : Server)
  : (DbError + unit) * Server :=
  if fault env i then (inl (PersistenceError i), s)
  else (inr tt, conn_close (conn_commit_now (snd (q (clock env i) (get_conn s))))).

Definition on_view (f : Tables -> Tables) (c : Conn) : Conn :=
  {| conn_server := conn_server c; conn_view := f (conn_view c) |}.

Definition on_autoinc (f : Counters -> Counters) (c : Conn) : Conn :=
  {| conn_server := {| committed := committed (conn_server c);
                       autoinc := f (autoinc (conn_server c)) |};
     conn_view := conn_view c |}.

(* ------------------------------------------------------------------ *)
(** ** Form input *)

(** [str.isdigit()] on the text of a form field, and the number MySQL reads
    from such a text when it compares it with an integer column. *)
Definition is_digit (ch : ascii) : bool :=
  (48 <=? nat_of_ascii ch)%nat && (nat_of_ascii ch <=? 57)%nat.

Fixpoint all_digits (s : string) : bool :=
  match s with
  | EmptyString => true
  | String ch rest => is_digit ch && all_digits rest
  end.

Definition isdigit (s : string) : bool :=
  match s with
  | EmptyString => false
  | _ => all_digits s
  end.

Fixpoint digits_value (acc : N) (s : string) : N :=
  match s with
  | EmptyString => acc
  | String ch rest => digits_value (10 * acc + (N.of_nat (nat_of_ascii ch) - 48)) rest
  end.

Definition number_of (s : string) : N := digits_value 0 s.

(* ------------------------------------------------------------------ *)
(** ** The SQL statements of the workflows *)

Definition bump_donor (k : Counters) : Counters :=
  {| next_donor_id := next_donor_id k + 1; next_donation_id := next_donation_id k;
     next_batch_id := next_batch_id k; next_order_id := next_order_id k;
     next_order_item_id := next_order_item_id k; next_payment_id := next_payment_id k |}.

Definition bump_donation (k : Counters) : Counters :=
  {| next_donor_id := next_donor_id k; next_donation_id := next_donation_id k + 1;
     next_batch_id := next_batch_id k; next_order_id := next_order_id k;
     next_order_item_id := next_order_item_id k; next_payment_id := next_payment_id k |}.

Definition bump_batch (k : Counters) : Counters :=
  {| next_donor_id := next_donor_id k; next_donation_id := next_donation_id k;
     next_batch_id := next_batch_id k + 1; next_order_id := next_order_id k;
     next_order_item_id := next_order_item_id k; next_payment_id := next_payment_id k |}.

Definition bump_order (k : Counters) : Counters :=
  {| next_donor_id := next_donor_id k; next_donation_id := next_donation_id k;
     next_batch_id := next_batch_id k; next_order_id := next_order_id k + 1;
     next_order_item_id := next_order_item_id k; next_payment_id := next_payment_id k |}.

Definition bump_order_item (k : Counters) : Counters :=
  {| next_donor_id := next_donor_id k; next_donation_id := next_donation_id k;
     next_batch_id := next_batch_id k; next_order_id := next_order_id k;
     next_order_item_id := next_order_item_id k + 1; next_payment_id := next_payment_id k |}.

Definition bump_payment (k : Counters) : Counters :=
  {| next_donor_id := next_donor_id k; next_donation_id := next_donation_id k;
     next_batch_id := next_batch_id k; next_order_id := next_order_id k;
     next_order_item_id := next_order_item_id k; next_payment_id := next_payment_id k + 1 |}.

(** [SELECT * FROM inventory_batches WHERE batch_id=%s] and [fetchone()]. *)
Definition lookup_batch (batch_id : N) (t : Tables) : option InventoryBatch :=
  find (fun b => N.eqb (b_batch_id b) batch_id) (inventory_batches t).

(** [SELECT * FROM inventory_batches WHERE batch_id=%s FOR UPDATE]. *)
Definition select_batch_for_update (batch_id : N) : Stmt (option InventoryBatch) :=
  fun _ c => (lookup_batch batch_id (conn_view c), c).

(** [INSERT INTO orders (customer_id, retailer_id, total_amount, status, notes)];
    [placed_at] takes its default CURRENT_TIMESTAMP; the result is
    [cur.lastrowid]. *)
Definition insert_order (customer_id : N) (retailer_id : option N) (total : Z)
    (st : OrderStatus) (notes : string) : Stmt N :=
  fun now c =>
    let oid := next_order_id (autoinc (conn_server c)) in
    let row := {| o_order_id := oid; o_customer_id := customer_id;
                  o_retailer_id := retailer_id; o_total_amount := total;
                  o_status := st; o_placed_at := now; o_modified_at := None;
                  o_notes := Some notes |} in
    (oid, on_autoinc bump_order (on_view (fun t => with_orders (orders t ++ [row]) t) c)).

(** [INSERT INTO order_items (order_id, batch_id, blood_type_id, quantity_ml,
    unit_price, subtotal)]. *)
Definition insert_order_item (order_id batch_id blood_type_id quantity_ml : N)
    (unit_price subtotal : Z) : Stmt N :=
  fun _ c =>
    let iid := next_order_item_id (autoinc (conn_server c)) in
    let row := {| oi_order_item_id := iid; oi_order_id := order_id;
                  oi_batch_id := batch_id; oi_blood_type_id := blood_type_id;
                  oi_quantity_ml := quantity_ml; oi_unit_price := unit_price;
                  oi_subtotal := subtotal |} in
    (iid, on_autoinc bump_order_item
            (on_view (fun t => with_order_items (order_items t ++ [row]) t) c)).

(** [INSERT INTO payments (order_id, amount, method, status)]. *)
Definition insert_payment (order_id : N) (amount : Z) (m : PaymentMethod)
    (st : PaymentStatus) : Stmt N :=
  fun _ c =>
    let pid := next_payment_id (autoinc (conn_server c)) in
    let row := {| p_payment_id := pid; p_order_id := order_id; p_amount := amount;
                  p_method := m; p_status := st |} in
    (pid, on_autoinc bump_payment
            (on_view (fun t => with_payments (payments t ++ [row]) t) c)).

(** [UPDATE inventory_batches SET status=%s WHERE batch_id=%s]. *)
Definition update_batch_status (st : BatchStatus) (batch_id : N) : Stmt unit :=
  fun _ c =>
    (tt, on_view (fun t => with_inventory_batches
                    (update_where (fun b => N.eqb (b_batch_id b) batch_id)
                                  (set_b_status st) (inventory_batches t)) t) c).

(* ------------------------------------------------------------------ *)
(** ** Place Order (Customer Portal) *)

Inductive PlaceOutcome :=
| InvalidBatchId                           (* 'Please provide a valid Batch ID.' *)
| BatchNotFound                            (* 'Batch not found' *)
| BatchNotAvailable (st : BatchStatus)     (* 'Batch not available (Status: ..)' *)
| OrderPlaced (oid : N)                    (* 'Order .. placed successfully!' *)
| OrderFailed (e : DbError).               (* 'Order failed: ..' *)

(** [float(row['price_per_unit'])]: a DECIMAL(10,2) has at most ten
    significant digits, so it survives the trip through a double and back
    into DECIMAL(12,2) unchanged. *)
Definition float_of_decimal (d : Z) : Z := d.

(** The cursor block of the handler.  Interactions: 0 the locking SELECT,
    1-3 the three INSERTs, 4 the UPDATE, 5 the commit. *)
Definition place_order_cursor (env : Env) (user_id batch_id : N) (notes : string)
  : Tx PlaceOutcome :=
  row <- cur_execute env 0 (select_batch_for_update batch_id) ;;
  match row with
  | None => ret BatchNotFound
  | Some row =>
      if negb (batch_status_eqb (b_status row) available)
      then ret (BatchNotAvailable (b_status row))
      else
        let total := float_of_decimal (b_price_per_unit row) in
        oid <- cur_execute env 1
                 (insert_order user_id (Some (b_retailer_id row)) total placed notes) ;;
        cur_execute env 2
          (insert_order_item oid (b_batch_id row) (b_blood_type_id row)
             (b_quantity_ml row) (b_price_per_unit row) (b_price_per_unit row)) ;;;
        cur_execute env 3 (insert_payment oid total bank_transfer pending) ;;;
        cur_execute env 4 (update_batch_status reserved batch_id) ;;;
        conn_commit env 5 ;;;
        ret (OrderPlaced oid)
  end.

(** The handler once the batch id has been read.  On an exception the
    connection is left behind uncommitted, on the other paths it is closed:
    either way the server keeps only what was committed. *)
Definition place_order (env : Env) (user_id batch_id : N) (notes : string)
    (s : Server) : PlaceOutcome * Server :=
  match place_order_cursor env user_id batch_id notes (get_conn s) with
  | (inr out, c) => (out, conn_close c)
  | (inl e, c) => (OrderFailed e, conn_close c)
  end.

(** The submitted form: the batch id is the text of a text input. *)
Definition place_order_form (env : Env) (user_id : N) (batch_id notes : string)
    (s : Server) : PlaceOutcome * Server :=
  if negb (isdigit batch_id) then (InvalidBatchId, s)
  else place_order env user_id (number_of batch_id) notes s.



(* ------------------------------------------------------------------ *)
(** ** [fetch_df]: reads through a 30-second cache *)

(** [@st.cache_data(ttl=30)]: results are kept per (query, parameters) and
    served again, without asking the database, while they are younger than
    the time to live. *)
Definition ttl : Z := 30.

Definition Cache (K R : Type) : Type := list (K * (Z * R)).

Fixpoint cache_get {K R} (eqb : K -> K -> bool) (k : K) (c : Cache K R)
  : option (Z * R) :=
  match c with
  | [] => None
  | (k', e) :: rest => if eqb k' k then Some e else cache_get eqb k rest
  end.

Definition cache_put {K R} (eqb : K -> K -> bool) (k : K) (now : Z) (r : R)
    (c : Cache K R) : Cache K R :=
  (k, (now, r)) :: filter (fun e => negb (eqb (fst e) k)) c.

(** [fetch_df(query, params)] as the [i]-th interaction: [query k] is the
    SELECT with parameters [k], evaluated on the committed tables by a
    connection of its own. *)
Definition fetch_df {K R} (eqb : K -> K -> bool) (query : K -> Z -> Tables -> R)
    (env : Env) (i : nat) (k : K) (c : Cache K R) (s : Server)
  : (DbError + R) * Cache K R :=
  let now := clock env i in
  let miss :=
    if fault env i then (inl (PersistenceError i), c)
    else let r := query k now (committed s) in (inr r, cache_put eqb k now r c) in
  match cache_get eqb k c with
  | Some (stamp, r) => if (now <? stamp + ttl)%Z then (inr r, c) else miss
  | None => miss
  end.

(** [CURDATE()] at time [now]. *)
Definition date_of (now : Z) : Z := (now / 86400)%Z.

(* ------------------------------------------------------------------ *)
(** ** Browse & Order query (Customer Portal) *)

Record BrowseRow := {
  br_batch_id : N;
  br_retailer_id : N;
  br_retailer_name : string;
  br_city : option string;
  br_blood_type : string;
  br_quantity_ml : N;
  br_unit_count : N;
  br_quality : Quality;
  br_price_per_unit : Z;
  br_expiry_date : option Z }.

(** The filters that made it into the query text and its parameters. *)
Record BrowseKey := {
  k_blood_type : option string;
  k_city : option string;
  k_max_price : option Z }.

(** [sel_btype != 'All'], [if city], [if max_price]. *)
Definition browse_key (sel_btype city : string) (max_price : Z) : BrowseKey :=
  {| k_blood_type := if String.eqb sel_btype "All" then None else Some sel_btype;
     k_city := if String.eqb city "" then None else Some city;
     k_max_price := if Z.eqb max_price 0 then None else Some max_price |}.

Definition option_string_eqb (a b : option string) : bool :=
  match a, b with
  | None, None => true
  | Some x, Some y => String.eqb x y
  | _, _ => false
  end.



(** [ORDER BY]: a stable insertion sort on the order [leb]. *)
Fixpoint insert_by {A} (leb : A -> A -> bool) (x : A) (l : list A) : list A :=
  match l with
  | [] => [x]
  | y :: rest => if leb x y then x :: l else y :: insert_by leb x rest
  end.

Definition order_by {A} (leb : A -> A -> bool) (l : list A) : list A :=
  fold_right (insert_by leb) [] l.

(** [i.status='available' AND (i.expiry_date IS NULL OR i.expiry_date >= CURDATE())]. *)
Definition purchasable (today : Z) (b : InventoryBatch) : bool :=
  batch_status_eqb (b_status b) available
  && match b_expiry_date b with
     | None => true
     | Some d => (today <=? d)%Z
     end.

Section Browse.

(** The datastore's string matching, which depends on the collation of the
    columns: [sql_like pattern value] for [value LIKE pattern], and the order
    [collate_leb] that [ORDER BY] puts on strings. *)
Variable sql_like : string -> string -> bool.
Variable collate_leb : string -> string -> bool.

Definition browse_filters (k : BrowseKey) (b : InventoryBatch) (r : Retailer)
    (bt : BloodType) : bool :=
  match k_blood_type k with
  | None => true
  | Some code => String.eqb (bt_code bt) code
  end
  && match k_city k with
     | None => true
     | Some city =>
         match r_city r with
         | None => false
         | Some c => sql_like ("%" ++ city ++ "%") c
         end
     end
  && match k_max_price k with
     | None => true
     | Some p => (b_price_per_unit b <=? 100 * p)%Z
     end.

(** The selected columns; [IFNULL(r.name,'Unknown')] is [r.name], the column
    being NOT NULL. *)
Definition browse_row (b : InventoryBatch) (r : Retailer) (bt : BloodType) : BrowseRow :=
  {| br_batch_id := b_batch_id b; br_retailer_id := r_retailer_id r;
     br_retailer_name := r_name r; br_city := r_city r;
     br_blood_type := bt_code bt; br_quantity_ml := b_quantity_ml b;
     br_unit_count := b_unit_count b; br_quality := b_quality b;
     br_price_per_unit := b_price_per_unit b;
     br_expiry_date := b_expiry_date b |}.

(** The joins and the WHERE clause, batch by batch. *)
Definition browse_batch (k : BrowseKey) (today : Z) (t : Tables) (b : InventoryBatch)
  : list BrowseRow :=
  flat_map (fun r =>
    flat_map (fun bt =>
      if purchasable today b && browse_filters k b r bt
      then [browse_row b r bt] else [])
      (filter (fun bt => N.eqb (b_blood_type_id b) (bt_id bt)) (blood_types t)))
    (filter (fun r => N.eqb (b_retailer_id b) (r_retailer_id r)) (retailers t)).

(** [ORDER BY bt.code, i.price_per_unit]. *)
Definition browse_leb (x y : BrowseRow) : bool :=
  if collate_leb (br_blood_type x) (br_blood_type y)
  then if collate_leb (br_blood_type y) (br_blood_type x)
       then (br_price_per_unit x <=? br_price_per_unit y)%Z
       else true
  else false.

Definition browse_query (k : BrowseKey) (now : Z) (t : Tables) : list BrowseRow :=
  order_by browse_leb
    (flat_map (browse_batch k (date_of now) t) (inventory_batches t)).

End Browse.

(* ------------------------------------------------------------------ *)
(** ** My Orders & Payments query (Customer Portal) *)

(** A row of [SELECT o.*, p.status as payment_status, p.payment_id FROM
    orders o LEFT JOIN payments p ON o.order_id = p.order_id]. *)
Record OrderRow := {
  or_order : Order;
  or_payment_status : option PaymentStatus;
  or_payment_id : option N }.

Definition left_join_payments (ps : list Payment) (o : Order) : list OrderRow :=
  match filter (fun p => N.eqb (o_order_id o) (p_order_id p)) ps with
  | [] => [ {| or_order := o; or_payment_status := None; or_payment_id := None |} ]
  | matching =>
      map (fun p => {| or_order := o; or_payment_status := Some (p_status p);
                       or_payment_id := Some (p_payment_id p) |}) matching
  end.

(** [... WHERE o.customer_id=%s ORDER BY o.placed_at DESC]. *)
Definition orders_query (customer_id : N) (now : Z) (t : Tables) : list OrderRow :=
  order_by (fun x y => (o_placed_at (or_order y) <=? o_placed_at (or_order x))%Z)
    (flat_map (left_join_payments (payments t))
       (filter (fun o => N.eqb (o_customer_id o) customer_id) (orders t))).

(** [SELECT batch_id FROM order_items WHERE order_id=%s]; the parameter is
    the text of the form field. *)
Definition items_query (order_id : string) (now : Z) (t : Tables) : list N :=
  map oi_batch_id
    (filter (fun it => N.eqb (oi_order_id it) (number_of order_id)) (order_items t)).

(* ------------------------------------------------------------------ *)
(** ** The state of the application: the server and [fetch_df]'s cache *)

Record World := {
  server : Server;
  browse_cache : Cache BrowseKey (list BrowseRow);
  orders_cache : Cache N (list OrderRow);
  items_cache : Cache string (list N) }.

Definition with_server (s : Server) (w : World) : World :=
  {| server := s; browse_cache := browse_cache w;
     orders_cache := orders_cache w; items_cache := items_cache w |}.


Definition with_orders_cache (c : Cache N (list OrderRow)) (w : World) : World :=
  {| server := server w; browse_cache := browse_cache w;
     orders_cache := c; items_cache := items_cache w |}.

Definition with_items_cache (c : Cache string (list N)) (w : World) : World :=
  {| server := server w; browse_cache := browse_cache w;
     orders_cache := orders_cache w; items_cache := c |}.


(** Placing an order does not go through the cache. *)
Definition submit_order (env : Env) (user_id : N) (batch_id notes : string)
    (w : World) : PlaceOutcome * World :=
  let (out, s) := place_order_form env user_id batch_id notes (server w) in
  (out, with_server s w).

(* ------------------------------------------------------------------ *)
(** ** Simulate Pay Now (Customer Portal) *)

(** [UPDATE orders SET status='confirmed', modified_at=NOW() WHERE order_id=%s]. *)
Definition confirm_order (order_id : N) : Stmt unit :=
  fun now c =>
    (tt, on_view (fun t => with_orders
                    (update_where (fun o => N.eqb (o_order_id o) order_id)
                                  (set_o_status confirmed now) (orders t)) t) c).

(** [UPDATE payments SET status='completed', method='upi' WHERE payment_id=%s];
    a NULL parameter matches no row. *)
Definition complete_payment (payment_id : option N) : Stmt unit :=
  fun _ c =>
    (tt, on_view (fun t => with_payments
                    (update_where
                       (fun p => match payment_id with
                                 | Some pid => N.eqb (p_payment_id p) pid
                                 | None => false
                                 end)
                       (set_p_paid completed upi) (payments t)) t) c).

(** The body of the button: interactions 1 and 2 are the two UPDATEs, 3 the
    commit; an exception rolls back; the connection is closed in any case. *)
Definition simulate_pay_now (env : Env) (row : OrderRow) (s : Server)
  : (DbError + unit) * Server :=
  match (cur_execute env 1 (confirm_order (o_order_id (or_order row))) ;;;
         cur_execute env 2 (complete_payment (or_payment_id row)) ;;;
         conn_commit env 3) (get_conn s) with
  | (inr _, c) => (inr tt, conn_close c)
  | (inl e, c) => (inl e, conn_close (conn_rollback c))
  end.

Inductive PayEvent :=
| PaymentSuccessful (oid : N)      (* 'Payment for Order .. successful!', then st.rerun() *)
| PaymentFailed (e : DbError)      (* 'Payment failed: ..' *)
| DuplicateWidgetID (oid : N).     (* two buttons with the key pay_<oid> *)

(** [row['status'] == 'placed' and row['payment_status'] == 'pending']. *)
Definition shows_pay_button (row : OrderRow) : bool :=
  order_status_eqb (o_status (or_order row)) placed
  && match or_payment_status row with
     | Some st => payment_status_eqb st pending
     | None => false
     end.

(** The loop over the rows of the order listing.  [clicked] is the order
    whose button was pressed in the browser, [seen] the button keys already
    created in this run of the script. *)
Fixpoint pay_buttons (env : Env) (clicked : option N) (seen : list N)
    (rows : list OrderRow) (s : Server) : list PayEvent * Server :=
  match rows with
  | [] => ([], s)
  | row :: rest =>
      if shows_pay_button row then
        let oid := o_order_id (or_order row) in
        if existsb (N.eqb oid) seen then ([DuplicateWidgetID oid], s)
        else if match clicked with Some k => N.eqb k oid | None => false end then
          match simulate_pay_now env row s with
          | (inr _, s') => ([PaymentSuccessful oid], s')
          | (inl e, s') =>
              let (evs, s'') := pay_buttons env clicked (oid :: seen) rest s' in
              (PaymentFailed e :: evs, s'')
          end
        else pay_buttons env clicked (oid :: seen) rest s
      else pay_buttons env clicked seen rest s
  end.

(** One run of the My Orders & Payments tab: interaction 0 is the listing
    read through [fetch_df]. *)
Definition my_orders_tab (env : Env) (user_id : N) (clicked : option N) (w : World)
  : (DbError + list PayEvent) * World :=
  match fetch_df N.eqb orders_query env 0 user_id (orders_cache w) (server w) with
  | (inl e, c) => (inl e, with_orders_cache c w)
  | (inr rows, c) =>
      let (evs, s) := pay_buttons env clicked [] rows (server w) in
      (inr evs, with_server s (with_orders_cache c w))
  end.

(* ------------------------------------------------------------------ *)
(** ** Update Order Status (Retailer Dashboard) *)

(** The statuses the select box offers. *)
Definition selectable_statuses : list OrderStatus :=
  [confirmed; preparing; shipped; delivered; cancelled].

(** [UPDATE orders SET status=%s, modified_at=NOW() WHERE order_id=%s AND
    retailer_id=%s]; a NULL [retailer_id] matches no retailer. *)
Definition update_order_of_retailer (st : OrderStatus) (order_id rid : N) : Stmt unit :=
  fun now c =>
    (tt, on_view (fun t => with_orders
                    (update_where
                       (fun o => N.eqb (o_order_id o) order_id
                                 && match o_retailer_id o with
                                    | Some r => N.eqb r rid
                                    | None => false
                                    end)
                       (set_o_status st now) (orders t)) t) c).

Inductive UpdateOutcome :=
| InvalidOrderId                        (* 'Invalid Order ID' *)
| StatusUpdated                         (* 'Order .. status updated to ..' *)
| CancelledAndRestocked (batch_id : N)  (* 'Order .. cancelled and batch .. restocked.' *)
| CancelledSilently                     (* no order item found: no message *)
| UpdateFailed (e : DbError).           (* 'Failed to update order: ..' *)

(** Interaction 0 is the order UPDATE through [execute], 1 the item lookup
    through [fetch_df], 2 the restocking UPDATE through [execute]. *)
Definition update_order_status (env : Env) (rid : N) (order_id : string)
    (new_status : OrderStatus) (w : World) : UpdateOutcome * World :=
  if negb (isdigit order_id) then (InvalidOrderId, w)
  else
    match execute env 0 (update_order_of_retailer new_status (number_of order_id) rid)
                  (server w) with
    | (inl e, s1) => (UpdateFailed e, with_server s1 w)
    | (inr _, s1) =>
        if order_status_eqb new_status cancelled then
          match fetch_df String.eqb items_query env 1 order_id (items_cache w) s1 with
          | (inl e, c) => (UpdateFailed e, with_server s1 (with_items_cache c w))
          | (inr [], c) => (CancelledSilently, with_server s1 (with_items_cache c w))
          | (inr (batch_id_to_restock :: _), c) =>
              match execute env 2 (update_batch_status available batch_id_to_restock) s1 with
              | (inl e, s2) => (UpdateFailed e, with_server s2 (with_items_cache c w))
              | (inr _, s2) =>
                  (CancelledAndRestocked batch_id_to_restock,
                   with_server s2 (with_items_cache c w))
              end
          end
        else (StatusUpdated, with_server s1 w)
    end.

(* ------------------------------------------------------------------ *)
(** ** Record Donation (Retailer Dashboard) *)

Section RecordDonation.

(** String equality as the datastore decides it on [donors.phone].  The
    column declares no collation of its own and takes the one the database
    is created with, [utf8mb4_unicode_ci], under which strings that differ
    only in the case of their letters are equal. *)
Variable collate_eqb : string -> string -> bool.

(** [phone=%s] on a donor row; a NULL phone is equal to nothing. *)
Definition phone_is (phone : string) (d : Donor) : bool :=
  match d_phone d with
  | Some p => collate_eqb p phone
  | None => false
  end.

(** [SELECT donor_id FROM donors WHERE phone=%s] and [fetchone()]. *)
Definition select_donor_by_phone (phone : string) : Stmt (option N) :=
  fun _ c =>
    (option_map d_donor_id (find (phone_is phone) (donors (conn_view c))), c).

(** [INSERT INTO donors (full_name, phone, blood_type_id)]. *)
Definition insert_donor (full_name phone : string) (blood_type_id : N) : Stmt N :=
  fun _ c =>
    let did := next_donor_id (autoinc (conn_server c)) in
    let row := {| d_donor_id := did; d_full_name := full_name;
                  d_phone := Some phone; d_blood_type_id := blood_type_id |} in
    (did, on_autoinc bump_donor (on_view (fun t => with_donors (donors t ++ [row]) t) c)).

(** [INSERT INTO donations (donor_id, retailer_id, collected_at, volume_ml,
    tested, test_result) VALUES (%s,%s,NOW(),%s,1,%s)]. *)
Definition insert_donation (donor_id retailer_id volume_ml : N)
    (result : TestResult) : Stmt N :=
  fun now c =>
    let id := next_donation_id (autoinc (conn_server c)) in
    let row := {| dn_donation_id := id; dn_donor_id := Some donor_id;
                  dn_retailer_id := retailer_id; dn_collected_at := now;
                  dn_volume_ml := volume_ml; dn_tested := true;
                  dn_test_result := result |} in
    (id, on_autoinc bump_donation
           (on_view (fun t => with_donations (donations t ++ [row]) t) c)).

(** [INSERT INTO inventory_batches (...) VALUES (%s,%s,%s,%s,1,%s,%s,%s,NOW(),
    DATE_ADD(CURDATE(), INTERVAL 35 DAY))]. *)
Definition insert_donated_batch (donation_id retailer_id blood_type_id quantity_ml : N)
    (q : Quality) (st : BatchStatus) (price : Z) : Stmt N :=
  fun now c =>
    let id := next_batch_id (autoinc (conn_server c)) in
    let row := {| b_batch_id := id; b_donation_id := Some donation_id;
                  b_retailer_id := retailer_id; b_blood_type_id := blood_type_id;
                  b_quantity_ml := quantity_ml; b_unit_count := 1;
                  b_quality := q; b_status := st; b_price_per_unit := price;
                  b_collected_at := Some now;
                  b_expiry_date := Some (date_of now + 35)%Z |} in
    (id, on_autoinc bump_batch
           (on_view (fun t => with_inventory_batches (inventory_batches t ++ [row]) t) c)).

Inductive DonationOutcome :=
| DonorRequired                    (* 'Donor name and phone required' *)
| DonationRecorded                 (* 'Donation recorded and added to inventory' *)
| DonationFailed (e : DbError).    (* 'Failed to record donation: ..' *)

(** The cursor block.  Interactions: 0 the donor lookup, 1 the donor insert
    (when the phone is new), 2 the donation insert, 3 the batch insert. *)
Definition record_donation_cursor (env : Env) (rid : N) (donor_name donor_phone : string)
    (bt_id volume : N) (price : Z) : Tx unit :=
  donor_row <- cur_execute env 0 (select_donor_by_phone donor_phone) ;;
  did <- match donor_row with
         | Some did => ret did
         | None => cur_execute env 1 (insert_donor donor_name donor_phone bt_id)
         end ;;
  donation_id <- cur_execute env 2 (insert_donation did rid volume test_pass) ;;
  cur_execute env 3
    (insert_donated_batch donation_id rid bt_id volume quality_A available price) ;;;
  ret tt.

(** The handler; interaction 4 is the commit.  [bt_id] is the id the select
    box maps the chosen blood type to, [price] the price after it is stored
    in a DECIMAL(10,2). *)
Definition record_donation (env : Env) (rid : N) (donor_name donor_phone : string)
    (bt_id volume : N) (price : Z) (s : Server) : DonationOutcome * Server :=
  if String.eqb donor_name "" || String.eqb donor_phone "" then (DonorRequired, s)
  else
    match (record_donation_cursor env rid donor_name donor_phone bt_id volume price ;;;
           conn_commit env 4) (get_conn s) with
    | (inr _, c) => (DonationRecorded, conn_close c)
    | (inl e, c) => (DonationFailed e, conn_close (conn_rollback c))
    end.

End RecordDonation.

(* ------------------------------------------------------------------ *)
(** ** What an operation may change in a row *)




(* ------------------------------------------------------------------ *)
(** ** Two customers placing orders at the same time *)

(** Two runs of the Place Order handler, each on a connection of its own,
    with their database interactions interleaved in any order.  The
    datastore is the one the handler is written for: [SELECT ... FOR UPDATE]
    reads the committed row and takes an exclusive lock on it, waiting while
    another transaction holds that lock; writes stay private to their
    transaction until [commit], which publishes them and releases the lock;
    closing a connection drops its writes and releases the lock.  No
    interaction fails here. *)

Inductive Sid := First | Second.

Definition other (i : Sid) : Sid :=
  match i with First => Second | Second => First end.

(** What a customer submitted, and the times of the run's interactions. *)
Record Request := {
  rq_user : N;
  rq_batch : N;
  rq_notes : string;
  rq_clock : nat -> Z }.

(** An uncommitted write of a transaction. *)
Inductive Write :=
| WOrder (o : Order)
| WItem (it : OrderItem)
| WPayment (p : Payment)
| WBatchStatus (st : BatchStatus) (batch_id : N).

Definition apply_write (t : Tables) (w : Write) : Tables :=
  match w with
  | WOrder o => with_orders (orders t ++ [o]) t
  | WItem it => with_order_items (order_items t ++ [it]) t
  | WPayment p => with_payments (payments t ++ [p]) t
  | WBatchStatus st batch_id =>
      with_inventory_batches
        (update_where (fun b => N.eqb (b_batch_id b) batch_id) (set_b_status st)
                      (inventory_batches t)) t
  end.

Definition apply_writes (ws : list Write) (t : Tables) : Tables :=
  fold_left apply_write ws t.

(** Where a run of the handler stands: the interaction it will make next,
    with the local variables [row] and [oid] it has so far. *)
Inductive Pc :=
| AtSelect
| AtInsertOrder (row : InventoryBatch)
| AtInsertItem (row : InventoryBatch) (oid : N)
| AtInsertPayment (row : InventoryBatch) (oid : N)
| AtUpdate (oid : N)
| AtCommit (oid : N)
| AtClose (out : PlaceOutcome)
| Finished (out : PlaceOutcome).

Record Session := {
  pc : Pc;
  holds : option N;          (* the batch row this transaction has locked *)
  writes : list Write }.

Record Config := { srv : Server; first : Session; second : Session }.

Definition sess (cfg : Config) (i : Sid) : Session :=
  match i with First => first cfg | Second => second cfg end.

Definition with_sess (i : Sid) (x : Session) (s : Server) (cfg : Config) : Config :=
  match i with
  | First => {| srv := s; first := x; second := second cfg |}
  | Second => {| srv := s; first := first cfg; second := x |}
  end.

Definition bump (f : Counters -> Counters) (s : Server) : Server :=
  {| committed := committed s; autoinc := f (autoinc s) |}.

Definition locked_by (x : Session) (batch_id : N) : bool :=
  match holds x with
  | Some l => N.eqb l batch_id
  | None => false
  end.

(** The next interaction of run [i]; [None] when the run is over or has to
    wait for a lock. *)
Definition step (rq : Sid -> Request) (i : Sid) (cfg : Config) : option Config :=
  let me := sess cfg i in
  let r := rq i in
  let s := srv cfg in
  match pc me with
  | AtSelect =>
      match lookup_batch (rq_batch r) (committed s) with
      | None =>
          Some (with_sess i {| pc := AtClose BatchNotFound; holds := holds me;
                               writes := writes me |} s cfg)
      | Some row =>
          if locked_by (sess cfg (other i)) (rq_batch r) then None
          else if negb (batch_status_eqb (b_status row) available)
          then Some (with_sess i {| pc := AtClose (BatchNotAvailable (b_status row));
                                    holds := Some (rq_batch r);
                                    writes := writes me |} s cfg)
          else Some (with_sess i {| pc := AtInsertOrder row;
                                    holds := Some (rq_batch r);
                                    writes := writes me |} s cfg)
      end
  | AtInsertOrder row =>
      let oid := next_order_id (autoinc s) in
      let o := {| o_order_id := oid; o_customer_id := rq_user r;
                  o_retailer_id := Some (b_retailer_id row);
                  o_total_amount := float_of_decimal (b_price_per_unit row);
                  o_status := placed; o_placed_at := rq_clock r 1;
                  o_modified_at := None; o_notes := Some (rq_notes r) |} in
      Some (with_sess i {| pc := AtInsertItem row oid; holds := holds me;
                           writes := writes me ++ [WOrder o] |}
                      (bump bump_order s) cfg)
  | AtInsertItem row oid =>
      let it := {| oi_order_item_id := next_order_item_id (autoinc s);
                   oi_order_id := oid; oi_batch_id := b_batch_id row;
                   oi_blood_type_id := b_blood_type_id row;
                   oi_quantity_ml := b_quantity_ml row;
                   oi_unit_price := b_price_per_unit row;
                   oi_subtotal := b_price_per_unit row |} in
      Some (with_sess i {| pc := AtInsertPayment row oid; holds := holds me;
                           writes := writes me ++ [WItem it] |}
                      (bump bump_order_item s) cfg)
  | AtInsertPayment row oid =>
      let p := {| p_payment_id := next_payment_id (autoinc s); p_order_id := oid;
                  p_amount := float_of_decimal (b_price_per_unit row);
                  p_method := bank_transfer; p_status := pending |} in
      Some (with_sess i {| pc := AtUpdate oid; holds := holds me;
                           writes := writes me ++ [WPayment p] |}
                      (bump bump_payment s) cfg)
  | AtUpdate oid =>
      Some (with_sess i {| pc := AtCommit oid; holds := holds me;
                           writes := writes me ++ [WBatchStatus reserved (rq_batch r)] |}
                      s cfg)
  | AtCommit oid =>
      Some (with_sess i {| pc := Finished (OrderPlaced oid); holds := None;
                           writes := [] |}
                      {| committed := apply_writes (writes me) (committed s);
                         autoinc := autoinc s |} cfg)
  | AtClose out =>
      Some (with_sess i {| pc := Finished out; holds := None; writes := [] |} s cfg)
  | Finished _ => None
  end.

(** A schedule names, interaction by interaction, the run that goes next; a
    run that cannot move when it is named loses its turn. *)
Definition turn (rq : Sid -> Request) (cfg : Config) (i : Sid) : Config :=
  match step rq i cfg with
  | Some cfg' => cfg'
  | None => cfg
  end.

Definition run (rq : Sid -> Request) (sched : list Sid) (cfg : Config) : Config :=
  fold_left (turn rq) sched cfg.

Definition fresh_session : Session :=
  {| pc := AtSelect; holds := None; writes := [] |}.

Definition start (s : Server) : Config :=
  {| srv := s; first := fresh_session; second := fresh_session |}.

Definition is_finished (x : Session) : bool :=
  match pc x with Finished _ => true | _ => false end.

Definition all_finished (cfg : Config) : bool :=
  is_finished (first cfg) && is_finished (second cfg).

(** The configurations of the serial executions: run [i] has made [k] of
    its interactions, and then the other run [m] of its own. *)
Definition serial (rq : Sid -> Request) (s : Server) (i : Sid) (k m : nat) : Config :=
  run rq (repeat i k ++ repeat (other i) m) (start s).

(** Where the serial position [(i, k, m)] moves when run [x] is named: a
    placement on an available batch takes six interactions, a rejected one
    two, and the second run waits until the first has committed. *)
Definition next_position (p : Sid * nat * nat) (x : Sid) : Sid * nat * nat :=
  match p with
  | (i, k, m) =>
      match k with
      | O => (x, 1, 0)%nat
      | _ =>
          if Nat.ltb k 6 then
            match i, x with
            | First, First | Second, Second => (i, S k, m)
            | _, _ => (i, k, m)
            end
          else
            match i, x with
            | First, First | Second, Second => (i, k, m)
            | _, _ => (i, k, if Nat.ltb m 2 then S m else m)
            end
      end
  end.

Definition position_ok (p : Sid * nat * nat) : bool :=
  match p with
  | (_, k, m) => Nat.leb k 6 && Nat.leb m 2 && (Nat.eqb m 0 || Nat.eqb k 6)
  end.

(* ------------------------------------------------------------------ *)
(** ** Add manual inventory (Retailer Dashboard) *)

(** [btype_map[btype]]: the dictionary made from the blood-type listing; of
    two entries with the same code the later one is the dictionary's. *)
Fixpoint dict_get (key : string) (d : list (string * N)) : option N :=
  match d with
  | [] => None
  | (k, v) :: rest =>
      match dict_get key rest with
      | Some v' => Some v'
      | None => if String.eqb k key then Some v else None
      end
  end.

(** [pd.Series(btype_df.id.values, index=btype_df.code).to_dict()] on the
    rows of [SELECT id, code FROM blood_types]. *)
Definition blood_type_map (t : Tables) : list (string * N) :=
  map (fun bt => (bt_code bt, bt_id bt)) (blood_types t).

(** [INSERT INTO inventory_batches (...) VALUES (NULL,%s,%s,%s,1,%s,%s,%s,
    NOW(),%s)]. *)
Definition insert_manual_batch (retailer_id blood_type_id quantity_ml : N)
    (q : Quality) (st : BatchStatus) (price expiry : Z) : Stmt unit :=
  fun now c =>
    let id := next_batch_id (autoinc (conn_server c)) in
    let row := {| b_batch_id := id; b_donation_id := None;
                  b_retailer_id := retailer_id; b_blood_type_id := blood_type_id;
                  b_quantity_ml := quantity_ml; b_unit_count := 1;
                  b_quality := q; b_status := st; b_price_per_unit := price;
                  b_collected_at := Some now; b_expiry_date := Some expiry |} in
    (tt, on_autoinc bump_batch
           (on_view (fun t => with_inventory_batches (inventory_batches t ++ [row]) t) c)).

Inductive AddOutcome :=
| InventoryAdded                       (* 'Inventory added' *)
| AddInventoryKeyError                 (* 'Failed to add inventory: ..' (KeyError) *)
| AddInventoryFailed (e : DbError).    (* 'Failed to add inventory: ..' *)

(** The submitted form of the inventory tab.  [btype] is what the select
    box holds ([None] when it has no option to offer), [price] the price as
    a DECIMAL(10,2) stores it; interaction 0 is the INSERT through
    [execute]. *)
Definition add_inventory (env : Env) (rid : N) (btype_map : list (string * N))
    (btype : option string) (qty : N) (price : Z) (quality : Quality) (expiry : Z)
    (s : Server) : AddOutcome * Server :=
  match match btype with
        | Some code => dict_get code btype_map
        | None => None
        end with
  | None => (AddInventoryKeyError, s)
  | Some bt_id =>
      match execute env 0
              (insert_manual_batch rid bt_id qty quality available price expiry) s with
      | (inl e, s') => (AddInventoryFailed e, s')
      | (inr _, s') => (InventoryAdded, s')
      end
  end.

(* ------------------------------------------------------------------ *)
(** ** Primary keys *)

(** The keys of a table are pairwise different and below the table's
    AUTO_INCREMENT counter. *)
Definition keys_below {A} (key : A -> N) (next : N) (rows : list A) : Prop :=
  NoDup (map key rows) /\ Forall (fun r => (key r < next)%N) rows.

Definition keyed (t : Tables) (k : Counters) : Prop :=
  keys_below d_donor_id (next_donor_id k) (donors t)
  /\ keys_below dn_donation_id (next_donation_id k) (donations t)
  /\ keys_below b_batch_id (next_batch_id k) (inventory_batches t)
  /\ keys_below o_order_id (next_order_id k) (orders t)
  /\ keys_below oi_order_item_id (next_order_item_id k) (order_items t)
  /\ keys_below p_payment_id (next_payment_id k) (payments t).

Definition well_keyed (s : Server) : Prop := keyed (committed s) (autoinc s).

(** Both what a connection has committed and what it sees are keyed. *)
Definition conn_keyed (c : Conn) : Prop :=
  keyed (committed (conn_server c)) (autoinc (conn_server c))
  /\ keyed (conn_view c) (autoinc (conn_server c)).

Definition stmt_keeps_keys {A} (q : Stmt A) : Prop :=
  forall now c, conn_keyed c -> conn_keyed (snd (q now c)).

Definition tx_keeps_keys {A} (m : Tx A) : Prop :=
  forall c, conn_keyed c -> conn_keyed (snd (m c)).

(** The foreign key of [order_items.order_id]: every order item belongs to
    an order of the table. *)
Definition items_reference_orders (t : Tables) : Prop :=
  forall it, In it (order_items t) ->
             exists o, In o (orders t) /\ o_order_id o = oi_order_id it.

(* ------------------------------------------------------------------ *)
(** ** Reporting queries (Retailer Dashboard, Admin Reports) *)

From Stdlib Require Import Sorting.Sorted Sorting.Permutation.

(** The reports are read through [fetch_df] like every listing; what
    follows are the queries themselves. *)

Definition sum_Z (l : list Z) : Z := fold_right Z.add 0%Z l.
Definition sum_N (l : list N) : N := fold_right N.add 0%N l.

(** [GROUP BY]: the different values of the grouping key, each once, in the
    order of their first row. *)
Fixpoint distinct {K} (eqb : K -> K -> bool) (l : list K) : list K :=
  match l with
  | [] => []
  | x :: rest => x :: filter (fun y => negb (eqb y x)) (distinct eqb rest)
  end.

(** [retailer_id=%s AND status NOT IN ("cancelled", "refunded")]. *)
Definition sale_of (rid : N) (o : Order) : bool :=
  match o_retailer_id o with
  | Some r => N.eqb r rid
  | None => false
  end
  && negb (order_status_eqb (o_status o) cancelled
           || order_status_eqb (o_status o) refunded).

Record SalesRow := { sr_date : Z; sr_total_sales : Z; sr_orders : N }.

(** [SELECT DATE(placed_at) as date, SUM(total_amount) as total_sales,
    COUNT(order_id) as orders FROM orders WHERE ... GROUP BY DATE(placed_at)
    ORDER BY date]. *)
Definition sales_query (rid : N) (now : Z) (t : Tables) : list SalesRow :=
  let sold := filter (sale_of rid) (orders t) in
  order_by (fun x y => (sr_date x <=? sr_date y)%Z)
    (map (fun d =>
            let day := filter (fun o => Z.eqb (date_of (o_placed_at o)) d) sold in
            {| sr_date := d;
               sr_total_sales := sum_Z (map o_total_amount day);
               sr_orders := N.of_nat (List.length day) |})
         (distinct Z.eqb (map (fun o => date_of (o_placed_at o)) sold))).









(* ------------------------------------------------------------------ *)
(** ** Accounts: Signup, Login, the default administrator *)

Inductive Role := role_customer | role_retailer | role_admin.

Record User := {
  u_user_id : N;
  u_full_name : option string;
  u_email : option string;
  u_phone : option string;
  u_password_hash : option string;
  u_role : Role;
  u_is_active : bool }.

Record Customer := {
  c_customer_id : N;
  c_hospital_name : option string;
  c_contact_person : option string }.

(** The tables [users] and [customers], and the AUTO_INCREMENT counter of
    [users]. *)
Record Accounts := {
  users : list User;
  customers : list Customer;
  next_user_id : N }.

(** [str.strip()] on the characters of a form field. *)
Definition is_space (ch : ascii) : bool :=
  ((9 <=? nat_of_ascii ch)%nat && (nat_of_ascii ch <=? 13)%nat)
  || ((28 <=? nat_of_ascii ch)%nat && (nat_of_ascii ch <=? 32)%nat).

Fixpoint lstrip (s : string) : string :=
  match s with
  | EmptyString => EmptyString
  | String ch rest => if is_space ch then lstrip rest else s
  end.

Fixpoint rstrip (s : string) : string :=
  match s with
  | EmptyString => EmptyString
  | String ch rest =>
      match rstrip rest with
      | EmptyString => if is_space ch then EmptyString else String ch EmptyString
      | kept => String ch kept
      end
  end.

Definition strip (s : string) : string := rstrip (lstrip s).

(** [not phone.startswith("+") or not phone[1:].isdigit() or len(phone) < 11],
    negated. *)
Definition phone_ok (phone : string) : bool :=
  match phone with
  | String "+" rest => isdigit rest && (11 <=? String.length phone)%nat
  | _ => false
  end.

Definition with_retailers (l : list Retailer) (t : Tables) : Tables :=
  {| blood_types := blood_types t; retailers := l; donors := donors t;
     donations := donations t; inventory_batches := inventory_batches t;
     orders := orders t; order_items := order_items t; payments := payments t |}.

(** A value is taken when a row holds it: the UNIQUE keys on [users.email]
    and [users.phone] (NULLs do not collide). *)
Definition email_taken (email : string) (us : list User) : bool :=
  existsb (fun u => option_string_eqb (u_email u) (Some email)) us.

Definition phone_taken (phone : string) (us : list User) : bool :=
  existsb (fun u => option_string_eqb (u_phone u) (Some phone)) us.

(** The row of [INSERT INTO users (full_name, email, phone, password_hash,
    role)]; [is_active] takes its default 1. *)
Definition new_user (uid : N) (name email phone hashed : string) (role : Role) : User :=
  {| u_user_id := uid; u_full_name := Some name; u_email := Some email;
     u_phone := Some phone; u_password_hash := Some hashed; u_role := role;
     u_is_active := true |}.

(** [SELECT user_id FROM users WHERE email=%s OR phone=%s]. *)
Definition existing_query (a : Accounts) (k : string * string) (now : Z) (t : Tables)
  : list N :=
  map u_user_id
    (filter (fun u => option_string_eqb (u_email u) (Some (fst k))
                      || option_string_eqb (u_phone u) (Some (snd k))) (users a)).

(** [SELECT * FROM users WHERE email=%s AND is_active=1]. *)
Definition active_user_query (a : Accounts) (email : string) (now : Z) (t : Tables)
  : list User :=
  filter (fun u => option_string_eqb (u_email u) (Some email) && u_is_active u)
         (users a).

(** [SELECT user_id FROM users WHERE email=%s]. *)
Definition user_by_email_query (a : Accounts) (email : string) (now : Z) (t : Tables)
  : list N :=
  map u_user_id (filter (fun u => option_string_eqb (u_email u) (Some email)) (users a)).

Definition pair_eqb (x y : string * string) : bool :=
  String.eqb (fst x) (fst y) && String.eqb (snd x) (snd y).

(** The whole application: the marketplace state, the accounts, the cached
    results of the three account queries, and the signed-in user of the
    browser session. *)
Record Site := {
  world : World;
  accounts : Accounts;
  existing_cache : Cache (string * string) (list N);
  login_cache : Cache string (list User);
  seed_cache : Cache string (list N);
  session_user : option User }.

Inductive SignupOutcome :=
| FillAllFields                      (* 'Please fill all fields before submitting.' *)
| PasswordsDoNotMatch                (* 'Passwords do not match.' *)
| InvalidPhone                       (* 'Invalid phone number ..' *)
| InvalidEmail                       (* 'Invalid email format.' *)
| AccountExists                      (* 'An account with this email or phone ..' *)
| AccountCreated (uid : N)           (* 'Account created successfully! ..' *)
| SignupDatabaseError (e : DbError)  (* 'Database error during signup: ..' *)
| SignupFailed (e : DbError).        (* 'Signup failed: ..' *)

Inductive LoginOutcome :=
| ProvideEmailAndPassword            (* 'Provide email and password' *)
| NoActiveAccount                    (* 'No active account found with that email.' *)
| InvalidPassword                    (* 'Invalid password' *)
| LoggedIn (u : User)                (* 'Logged in as ..' *)
| LoginFailed (e : DbError).         (* 'Login failed: ..' *)

Inductive SeedOutcome :=
| AdminPresent
| AdminCreated
| SeedFailed (e : DbError).          (* 'Failed to create admin user: ..' *)

Section Credentials.

(** The libraries behind the account pages: [validate_email], which accepts
    or raises; [bcrypt.hashpw] with the salt of this run; [bcrypt.checkpw],
    which answers or raises ([None]). *)
Variable validate_email : string -> bool.
Variable hashpw : string -> string.
Variable checkpw : string -> string -> option bool.

Definition hash_password (pw : string) : string := hashpw pw.

(** [verify_password]: no stored hash, or an exception, is a refusal. *)
Definition verify_password (pw : string) (hashed : option string) : bool :=
  match hashed with
  | None => false
  | Some EmptyString => false
  | Some h =>
      match checkpw pw h with
      | Some ok => ok
      | None => false
      end
  end.

(** The transaction of the signup handler.  Interaction 1 is the INSERT
    into [users], which also fails when the email or the phone is taken;
    interaction 2 the INSERT of the profile, which also fails when its
    primary key exists; interaction 3 the commit.  A failure rolls back:
    only the counter keeps what it handed out. *)
Definition signup_transaction (env : Env) (name email phone hashed : string)
    (role : Role) (a : Accounts) (s : Server) : (DbError + N) * Accounts * Server :=
  if fault env 1 || email_taken email (users a) || phone_taken phone (users a)
  then (inl (PersistenceError 1), a, s)
  else
    let uid := next_user_id a in
    let rolled_back :=
      {| users := users a; customers := customers a; next_user_id := uid + 1 |} in
    let as_retailer :=
      match role with role_retailer => true | _ => false end in
    let key_exists :=
      if as_retailer
      then existsb (fun r => N.eqb (r_retailer_id r) uid) (retailers (committed s))
      else existsb (fun c => N.eqb (c_customer_id c) uid) (customers a) in
    if fault env 2 || key_exists then (inl (PersistenceError 2), rolled_back, s)
    else if fault env 3 then (inl (PersistenceError 3), rolled_back, s)
    else if as_retailer
    then (inr uid,
          {| users := users a ++ [new_user uid name email phone hashed role];
             customers := customers a; next_user_id := uid + 1 |},
          {| committed :=
               with_retailers
                 (retailers (committed s) ++
                  [ {| r_retailer_id := uid; r_name := name; r_city := None |} ])
                 (committed s);
             autoinc := autoinc s |})
    else (inr uid,
          {| users := users a ++ [new_user uid name email phone hashed role];
             customers := customers a ++
                          [ {| c_customer_id := uid; c_hospital_name := Some name;
                               c_contact_person := Some name |} ];
             next_user_id := uid + 1 |},
          s).

Definition with_accounts_server (a : Accounts) (s : Server) (x : Site) : Site :=
  {| world := with_server s (world x); accounts := a;
     existing_cache := existing_cache x; login_cache := login_cache x;
     seed_cache := seed_cache x; session_user := session_user x |}.

(** The submitted signup form.  Interaction 0 is the look-up of an existing
    account through [fetch_df]. *)
Definition signup (env : Env) (role : Role)
    (name_in email_in phone_in password_in confirm_in : string) (x : Site)
  : SignupOutcome * Site :=
  let name := strip name_in in
  let email := strip email_in in
  let phone := strip phone_in in
  let password := strip password_in in
  let confirm := strip confirm_in in
  if String.eqb name "" || String.eqb email "" || String.eqb phone ""
     || String.eqb password "" || String.eqb confirm ""
  then (FillAllFields, x)
  else if negb (String.eqb password confirm) then (PasswordsDoNotMatch, x)
  else if negb (phone_ok phone) then (InvalidPhone, x)
  else if negb (validate_email email) then (InvalidEmail, x)
  else
    match fetch_df pair_eqb (existing_query (accounts x)) env 0 (email, phone)
            (existing_cache x) (server (world x)) with
    | (inl e, c) => (SignupFailed e, x)
    | (inr existing, c) =>
        let x1 := {| world := world x; accounts := accounts x;
                     existing_cache := c; login_cache := login_cache x;
                     seed_cache := seed_cache x; session_user := session_user x |} in
        match existing with
        | _ :: _ => (AccountExists, x1)
        | [] =>
            let hashed := hash_password password in
            match signup_transaction env name email phone hashed role
                    (accounts x) (server (world x)) with
            | (inl e, a, s) => (SignupDatabaseError e, with_accounts_server a s x1)
            | (inr uid, a, s) => (AccountCreated uid, with_accounts_server a s x1)
            end
        end
    end.

(** The Login button.  The email is stripped, the password is not. *)
Definition login (env : Env) (email_in password : string) (x : Site)
  : LoginOutcome * Site :=
  let email := strip email_in in
  if String.eqb email "" || String.eqb password "" then (ProvideEmailAndPassword, x)
  else
    match fetch_df String.eqb (active_user_query (accounts x)) env 0 email
            (login_cache x) (server (world x)) with
    | (inl e, c) => (LoginFailed e, x)
    | (inr df, c) =>
        let x1 := {| world := world x; accounts := accounts x;
                     existing_cache := existing_cache x; login_cache := c;
                     seed_cache := seed_cache x; session_user := session_user x |} in
        match df with
        | [] => (NoActiveAccount, x1)
        | row :: _ =>
            if verify_password password (u_password_hash row)
            then (LoggedIn row,
                  {| world := world x; accounts := accounts x;
                     existing_cache := existing_cache x; login_cache := c;
                     seed_cache := seed_cache x; session_user := Some row |})
            else (InvalidPassword, x1)
        end
    end.

Definition ADMIN_EMAIL : string := "admin@blood.bank".
Definition ADMIN_PASS : string := "admin123".

(** [seed_admin_user].  Interaction 0 is the look-up through [fetch_df],
    interaction 1 the INSERT through [execute]. *)
Definition seed_admin_user (env : Env) (x : Site) : SeedOutcome * Site :=
  match fetch_df String.eqb (user_by_email_query (accounts x)) env 0 ADMIN_EMAIL
          (seed_cache x) (server (world x)) with
  | (inl e, c) => (SeedFailed e, x)
  | (inr df, c) =>
      let x1 := {| world := world x; accounts := accounts x;
                   existing_cache := existing_cache x; login_cache := login_cache x;
                   seed_cache := c; session_user := session_user x |} in
      match df with
      | _ :: _ => (AdminPresent, x1)
      | [] =>
          let a := accounts x in
          if fault env 1 || email_taken ADMIN_EMAIL (users a)
             || phone_taken "+0000000000" (users a)
          then (SeedFailed (PersistenceError 1), x1)
          else
            (AdminCreated,
             {| world := world x;
                accounts :=
                  {| users := users a ++
                              [new_user (next_user_id a) "Platform Admin" ADMIN_EMAIL
                                 "+0000000000" (hash_password ADMIN_PASS) role_admin];
                     customers := customers a; next_user_id := next_user_id a + 1 |};
                existing_cache := existing_cache x; login_cache := login_cache x;
                seed_cache := c; session_user := session_user x |})
      end
  end.

End Credentials.

(** No two users share an email, and no two share a phone. *)
Definition emails_of (us : list User) : list string :=
  flat_map (fun u => match u_email u with Some e => [e] | None => [] end) us.

Definition phones_of (us : list User) : list string :=
  flat_map (fun u => match u_phone u with Some p => [p] | None => [] end) us.

Definition unique_contacts (a : Accounts) : Prop :=
  NoDup (emails_of (users a)) /\ NoDup (phones_of (users a)).
(* ------------------------------------------------------------------ *)
(** ** Sample data *)

Definition no_faults (clk : nat -> Z) : Env := {| fault := fun _ => false; clock := clk |}.

Definition fault_at (k : nat) (clk : nat -> Z) : Env :=
  {| fault := fun i => Nat.eqb i k; clock := clk |}.

(** A batch of blood type 1 held by retailer 10, priced 2000.00. *)
Definition sample_batch (id : N) (st : BatchStatus) : InventoryBatch :=
  {| b_batch_id := id; b_donation_id := None; b_retailer_id := 10;
     b_blood_type_id := 1; b_quantity_ml := 450; b_unit_count := 1;
     b_quality := quality_A; b_status := st; b_price_per_unit := 200000;
     b_collected_at := Some 0%Z; b_expiry_date := Some 40%Z |}.

Definition sample_tables : Tables :=
  {| blood_types := [ {| bt_id := 1; bt_code := "A+" |} ];
     retailers := [ {| r_retailer_id := 10; r_name := "City Blood Bank";
                       r_city := Some "Pune"%string |} ];
     donors := []; donations := [];
     inventory_batches := [ sample_batch 7 available; sample_batch 8 reserved ];
     orders := []; order_items := []; payments := [] |}.

Definition sample_counters : Counters :=
  {| next_donor_id := 1; next_donation_id := 1; next_batch_id := 9;
     next_order_id := 1; next_order_item_id := 1; next_payment_id := 1 |}.

Definition sample_server : Server :=
  {| committed := sample_tables; autoinc := sample_counters |}.

Definition at_time (t : Z) : Env := no_faults (fun _ => t).

Definition empty_world (s : Server) : World :=
  {| server := s; browse_cache := []; orders_cache := []; items_cache := [] |}.

(** Equality of strings up to the case of the letters A to Z:
    [utf8mb4_unicode_ci] holds two strings equal that differ only in
    that. *)
Definition lower (ch : ascii) : ascii :=
  let n := N_of_ascii ch in
  if (65 <=? n)%N && (n <=? 90)%N then ascii_of_N (n + 32) else ch.

Fixpoint ci_eqb (a b : string) : bool :=
  match a, b with
  | EmptyString, EmptyString => true
  | String x a', String y b' => Ascii.eqb (lower x) (lower y) && ci_eqb a' b'
  | _, _ => false
  end.

(** Customer 3 has ordered batch 7 at time 5: order 1, order item 1 and
    payment 1 exist, the batch is reserved. *)
Definition placed_server : Server :=
  snd (place_order (at_time 5) 3 7 "" sample_server).

Definition placed_world : World := empty_world placed_server.

(** Retailer 10 has recorded a donation of 450 ml by a donor with phone
    +911234567890 at time 1000. *)
Definition donated_server : Server :=
  snd (record_donation ci_eqb (at_time 1000) 10 "Asha" "+911234567890" 1 450 200000
         sample_server).

(** The same, with a phone that was typed with letters in it. *)
Definition lettered_server : Server :=
  snd (record_donation ci_eqb (at_time 1000) 10 "Asha" "+91-ABC" 1 450 200000
         sample_server).

(** [LIKE] with the wildcards [%] and [_] under a binary collation. *)
Fixpoint binary_like (pattern value : string) : bool :=
  match pattern with
  | EmptyString => match value with EmptyString => true | _ => false end
  | String "%" p =>
      (fix any_prefix (v : string) : bool :=
         binary_like p v
         || match v with
            | EmptyString => false
            | String _ v' => any_prefix v'
            end) value
  | String "_" p =>
      match value with
      | String _ v => binary_like p v
      | EmptyString => false
      end
  | String ch p =>
      match value with
      | String ch' v => Ascii.eqb ch ch' && binary_like p v
      | EmptyString => false
      end
  end.

(** Customers 3 and 4 both ask for batch 7. *)
Definition sample_requests (i : Sid) : Request :=
  match i with
  | First => {| rq_user := 3; rq_batch := 7; rq_notes := "";
                rq_clock := fun _ => 5%Z |}
  | Second => {| rq_user := 4; rq_batch := 7; rq_notes := "urgent";
                 rq_clock := fun _ => 6%Z |}
  end.

(** An interleaving in which the second customer gets to the batch first. *)
Definition sample_schedule : list Sid :=
  [Second; First; First; Second; Second; First; Second; Second; First;
   Second; First; First; First].

(** Retailer 10 has added a batch of A+ by hand at time 2000, expiring on
    day 3. *)
Definition stocked_server : Server :=
  snd (add_inventory (at_time 2000) 10 (blood_type_map sample_tables) (Some "A+"%string)
         450 150000 quality_B 3 sample_server).

(** The sample tables with batch 7 one day past its expiry date at time 0. *)
Definition stale_server : Server :=
  {| committed :=
       with_inventory_batches
         [ {| b_batch_id := 7; b_donation_id := None; b_retailer_id := 10;
              b_blood_type_id := 1; b_quantity_ml := 450; b_unit_count := 1;
              b_quality := quality_A; b_status := available;
              b_price_per_unit := 200000; b_collected_at := None;
              b_expiry_date := Some (-1)%Z |} ] sample_tables;
     autoinc := sample_counters |}.


(** A toy password hash for the examples: the password behind a marker. *)
Definition toy_hashpw (pw : string) : string := ("$toy$" ++ pw)%string.

Definition toy_checkpw (pw hashed : string) : option bool :=
  Some (String.eqb hashed (toy_hashpw pw)).

Definition toy_validate_email (email : string) : bool :=
  binary_like "%_@_%._%" email.

Definition empty_site : Site :=
  {| world := empty_world sample_server;
     accounts := {| users := []; customers := []; next_user_id := 1 |};
     existing_cache := []; login_cache := []; seed_cache := [];
     session_user := None |}.

(** A hospital has signed up at time 10. *)
Definition signed_up_site : Site :=
  snd (signup toy_validate_email toy_hashpw (at_time 10) role_customer
         " City Hospital " "desk@city.example" "+911234567890" "s3cret " "s3cret"
         empty_site).
(* ================================================================== *)
(** * Properties *)

(** ** Place Order *)

Lemma batch_status_eqb_eq (a b : BatchStatus) :
  batch_status_eqb a b = true <-> a = b.
Proof. destruct a, b; simpl; split; intro H; try reflexivity; discriminate H. Qed.

Lemma lookup_batch_update st bid l b :
  find (fun x => N.eqb (b_batch_id x) bid) l = Some b ->
  find (fun x => N.eqb (b_batch_id x) bid)
       (update_where (fun x => N.eqb (b_batch_id x) bid) (set_b_status st) l)
  = Some (set_b_status st b).
Proof.
  induction l as [|x l IH]; simpl; intro H; [discriminate|].
  destruct (N.eqb (b_batch_id x) bid) eqn:E.
  - inversion H; subst. simpl. rewrite E. reflexivity.
  - rewrite E. apply IH, H.
Qed.

Lemma lookup_batch_key batch_id t b :
  lookup_batch batch_id t = Some b -> b_batch_id b = batch_id.
Proof.
  unfold lookup_batch. intro H. apply find_some in H. destruct H as [_ H].
  apply N.eqb_eq. exact H.
Qed.

Lemma update_where_length {A} (cond : A -> bool) f (l : list A) :
  List.length (update_where cond f l) = List.length l.
Proof. apply length_map. Qed.

Ltac run_cursor :=
  unfold place_order, place_order_cursor, bind, ret, cur_execute, conn_commit,
    select_batch_for_update, float_of_decimal; simpl.

(** C1. An order-placement attempt on a batch whose status is not
    [available] is rejected with "Batch not available" and an attempt on a
    batch id that does not exist with "Batch not found"; in both cases the
    whole server state (every table, hence the batch's status, the row counts
    and the orders, order items and payments) is what it was. *)
Theorem place_order_rejects_unavailable :
  forall env user_id batch_id notes s,
    fault env 0 = false ->
    (forall b, lookup_batch batch_id (committed s) = Some b ->
               b_status b <> available ->
               place_order env user_id batch_id notes s
               = (BatchNotAvailable (b_status b), s))
    /\ (lookup_batch batch_id (committed s) = None ->
        place_order env user_id batch_id notes s = (BatchNotFound, s)).
Proof.
  intros env user_id batch_id notes s Hf. split.
  - intros b Hb Hst. run_cursor. rewrite Hf, Hb.
    destruct (batch_status_eqb (b_status b) available) eqn:E.
    + apply batch_status_eqb_eq in E. contradiction.
    + simpl. destruct s; reflexivity.
  - intros Hb. run_cursor. rewrite Hf, Hb. destruct s; reflexivity.
Qed.

Lemma place_order_rejects_unavailable_witness :
  place_order (no_faults (fun _ => 0%Z)) 3 8 "" sample_server
    = (BatchNotAvailable reserved, sample_server)
  /\ place_order (no_faults (fun _ => 0%Z)) 3 99 "" sample_server
    = (BatchNotFound, sample_server).
Proof.
  split.
  - apply (proj1 (place_order_rejects_unavailable
                    (no_faults (fun _ => 0%Z)) 3 8 "" sample_server eq_refl)
                 (sample_batch 8 reserved)).
    + reflexivity.
    + discriminate.
  - apply (proj2 (place_order_rejects_unavailable
                    (no_faults (fun _ => 0%Z)) 3 99 "" sample_server eq_refl)).
    reflexivity.
Defined.

(** C2. A successful placement on batch [B] by customer [C]: [B] was
    available; exactly one order is added, for [C] and [B]'s retailer, with
    total [B.price_per_unit] and status [placed]; exactly one order item, for
    that order and [B], with unit price and subtotal [B.price_per_unit];
    exactly one payment for that order, of the total, by [bank_transfer] and
    [pending]; the rows with [B]'s id have status [reserved] afterwards and
    their other fields as before, the rows of the other batches are as they
    were, and looking [B] up finds it [reserved]; every other table is
    unchanged. *)
Theorem place_order_success :
  forall env user_id batch_id notes s oid s',
    place_order env user_id batch_id notes s = (OrderPlaced oid, s') ->
    exists b,
      lookup_batch batch_id (committed s) = Some b
      /\ b_status b = available
      /\ oid = next_order_id (autoinc s)
      /\ orders (committed s')
         = orders (committed s) ++
           [ {| o_order_id := oid; o_customer_id := user_id;
                o_retailer_id := Some (b_retailer_id b);
                o_total_amount := b_price_per_unit b; o_status := placed;
                o_placed_at := clock env 1; o_modified_at := None;
                o_notes := Some notes |} ]
      /\ order_items (committed s')
         = order_items (committed s) ++
           [ {| oi_order_item_id := next_order_item_id (autoinc s);
                oi_order_id := oid; oi_batch_id := b_batch_id b;
                oi_blood_type_id := b_blood_type_id b;
                oi_quantity_ml := b_quantity_ml b;
                oi_unit_price := b_price_per_unit b;
                oi_subtotal := b_price_per_unit b |} ]
      /\ payments (committed s')
         = payments (committed s) ++
           [ {| p_payment_id := next_payment_id (autoinc s); p_order_id := oid;
                p_amount := b_price_per_unit b; p_method := bank_transfer;
                p_status := pending |} ]
      /\ inventory_batches (committed s')
         = map (fun x =>
                  if N.eqb (b_batch_id x) batch_id
                  then {| b_batch_id := b_batch_id x;
                          b_donation_id := b_donation_id x;
                          b_retailer_id := b_retailer_id x;
                          b_blood_type_id := b_blood_type_id x;
                          b_quantity_ml := b_quantity_ml x;
                          b_unit_count := b_unit_count x;
                          b_quality := b_quality x; b_status := reserved;
                          b_price_per_unit := b_price_per_unit x;
                          b_collected_at := b_collected_at x;
                          b_expiry_date := b_expiry_date x |}
                  else x)
               (inventory_batches (committed s))
      /\ lookup_batch batch_id (committed s')
         = Some {| b_batch_id := batch_id; b_donation_id := b_donation_id b;
                   b_retailer_id := b_retailer_id b;
                   b_blood_type_id := b_blood_type_id b;
                   b_quantity_ml := b_quantity_ml b;
                   b_unit_count := b_unit_count b;
                   b_quality := b_quality b; b_status := reserved;
                   b_price_per_unit := b_price_per_unit b;
                   b_collected_at := b_collected_at b;
                   b_expiry_date := b_expiry_date b |}
      /\ (forall x, In x (inventory_batches (committed s')) ->
                    b_batch_id x = batch_id -> b_status x = reserved)
      /\ blood_types (committed s') = blood_types (committed s)
      /\ retailers (committed s') = retailers (committed s)
      /\ donors (committed s') = donors (committed s)
      /\ donations (committed s') = donations (committed s).
Proof.
  intros env user_id batch_id notes s oid s'. run_cursor.
  destruct (fault env 0); [discriminate|].
  destruct (lookup_batch batch_id (committed s)) as [b|] eqn:Hb; [|discriminate].
  destruct (batch_status_eqb (b_status b) available) eqn:Hst; simpl; [|discriminate].
  destruct (fault env 1); simpl; [discriminate|].
  destruct (fault env 2); simpl; [discriminate|].
  destruct (fault env 3); simpl; [discriminate|].
  destruct (fault env 4); simpl; [discriminate|].
  destruct (fault env 5); simpl; [discriminate|].
  intro H. inversion H; subst; clear H. exists b.
  apply batch_status_eqb_eq in Hst.
  split; [reflexivity|]. split; [exact Hst|]. split; [reflexivity|].
  split; [reflexivity|]. split; [reflexivity|]. split; [reflexivity|].
  split; [reflexivity|].
  split.
  { unfold lookup_batch; simpl.
    rewrite (@lookup_batch_update reserved batch_id _ b Hb).
    unfold set_b_status. rewrite (lookup_batch_key _ _ Hb). reflexivity. }
  split.
  { simpl. unfold update_where. intros x Hx Hid.
    apply in_map_iff in Hx. destruct Hx as [y [Hy _]].
    destruct (N.eqb (b_batch_id y) batch_id) eqn:E.
    - subst x. reflexivity.
    - subst x. apply N.eqb_neq in E. contradiction. }
  repeat split; reflexivity.
Qed.

Lemma place_order_success_witness :
  orders (committed (snd (place_order (no_faults (fun _ => 5%Z)) 3 7 "" sample_server)))
  = [ {| o_order_id := 1; o_customer_id := 3; o_retailer_id := Some 10%N;
         o_total_amount := 200000; o_status := placed; o_placed_at := 5;
         o_modified_at := None; o_notes := Some ""%string |} ]
  /\ map (fun x => (b_batch_id x, b_status x))
         (inventory_batches
            (committed (snd (place_order (no_faults (fun _ => 5%Z)) 3 7 ""
                               sample_server))))
     = [ (7%N, reserved); (8%N, reserved) ]
  /\ lookup_batch 7 (committed (snd (place_order (no_faults (fun _ => 5%Z)) 3 7 ""
                                       sample_server)))
     = Some (sample_batch 7 reserved).
Proof.
  destruct (place_order_success (no_faults (fun _ => 5%Z)) 3 7 "" sample_server
              (oid := 1)
              (s' := snd (place_order (no_faults (fun _ => 5%Z)) 3 7 "" sample_server))
              eq_refl)
    as [b [H1 [_ [_ [H4 [_ [_ [H7 [H8 _]]]]]]]]].
  injection H1 as H1. subst b.
  split; [exact H4|]. split.
  - exact (f_equal (map (fun x => (b_batch_id x, b_status x))) H7).
  - exact H8.
Defined.

(** Without faults a placement on an available batch succeeds. *)
Lemma place_order_succeeds :
  forall env user_id batch_id notes s b,
    (forall i, fault env i = false) ->
    lookup_batch batch_id (committed s) = Some b ->
    b_status b = available ->
    exists s', place_order env user_id batch_id notes s
               = (OrderPlaced (next_order_id (autoinc s)), s').
Proof.
  intros env user_id batch_id notes s b Hf Hb Hst. run_cursor.
  repeat (rewrite ?Hf, ?Hb, ?Hst; simpl).
  eexists. reflexivity.
Qed.

(** C3. Order placement is atomic: when any interaction of the attempt
    fails (the locking read, one of the four writes, in particular the
    payment insert, or the commit), the attempt does not succeed and the
    committed tables are exactly what they were: no order, order item or
    payment row, and the batch keeps its status. *)
Theorem place_order_atomic :
  forall env user_id batch_id notes s k,
    (k <= 5)%nat ->
    fault env k = true ->
    committed (snd (place_order env user_id batch_id notes s)) = committed s
    /\ forall oid, fst (place_order env user_id batch_id notes s) <> OrderPlaced oid.
Proof.
  intros env user_id batch_id notes s k Hk Hf. run_cursor.
  destruct (fault env 0) eqn:F0; simpl; [split; [reflexivity|discriminate]|].
  destruct (lookup_batch batch_id (committed s)) as [b|] eqn:Hb;
    [|split; [reflexivity|discriminate]].
  destruct (batch_status_eqb (b_status b) available) eqn:Hst; simpl;
    [|split; [reflexivity|discriminate]].
  destruct (fault env 1) eqn:F1; simpl; [split; [reflexivity|discriminate]|].
  destruct (fault env 2) eqn:F2; simpl; [split; [reflexivity|discriminate]|].
  destruct (fault env 3) eqn:F3; simpl; [split; [reflexivity|discriminate]|].
  destruct (fault env 4) eqn:F4; simpl; [split; [reflexivity|discriminate]|].
  destruct (fault env 5) eqn:F5; simpl; [split; [reflexivity|discriminate]|].
  exfalso.
  do 6 (destruct k as [|k]; [congruence|]). lia.
Qed.

Lemma place_order_atomic_witness :
  committed (snd (place_order (fault_at 3 (fun _ => 5%Z)) 3 7 "" sample_server))
    = committed sample_server
  /\ forall oid,
       fst (place_order (fault_at 3 (fun _ => 5%Z)) 3 7 "" sample_server)
       <> OrderPlaced oid.
Proof.
  apply (@place_order_atomic (fault_at 3 (fun _ => 5%Z)) 3 7 "" sample_server 3).
  - lia.
  - reflexivity.
Defined.

(** A batch id that is not a digit string is refused before the database
    is asked. *)
Lemma place_order_form_invalid env user_id batch_id notes s :
  isdigit batch_id = false ->
  place_order_form env user_id batch_id notes s = (InvalidBatchId, s).
Proof. intro H. unfold place_order_form. rewrite H. reflexivity. Qed.

(** ** Simulate Pay Now *)








(** C6 at a failing input.  The listing is read at time 100 and the
    customer pays order 1; the retailer ships it at 105; at 110 the listing
    still comes from the cache, still shows the order as [placed] with a
    [pending] payment, and a second press of the button succeeds again: it
    finds the order [shipped] with a [completed] payment and puts it back to
    [confirmed]. *)
Theorem pay_now_twice_confirms_twice :
  let w1 := snd (my_orders_tab (at_time 100) 3 (Some 1%N) placed_world) in
  let w2 := snd (update_order_status (at_time 105) 10 "1" shipped w1) in
  let w3 := snd (my_orders_tab (at_time 110) 3 (Some 1%N) w2) in
  fst (my_orders_tab (at_time 100) 3 (Some 1%N) placed_world)
    = inr [PaymentSuccessful 1]
  /\ map o_status (orders (committed (server w2))) = [shipped]
  /\ map p_status (payments (committed (server w2))) = [completed]
  /\ fst (my_orders_tab (at_time 110) 3 (Some 1%N) w2) = inr [PaymentSuccessful 1]
  /\ map o_status (orders (committed (server w3))) = [confirmed]
  /\ map o_modified_at (orders (committed (server w3))) = [Some 110%Z].
Proof. repeat split. Qed.

(** ** Update Order Status *)

Lemma update_where_none {A} (cond : A -> bool) f (l : list A) :
  (forall x, In x l -> cond x = false) -> update_where cond f l = l.
Proof.
  induction l as [|x l IH]; simpl; intro H; [reflexivity|].
  rewrite (H x (or_introl eq_refl)). f_equal. apply IH.
  intros y Hy. apply H. right. exact Hy.
Qed.

(** The order UPDATE is guarded by the retailer: a retailer who owns no
    order with that id changes no order, whatever status is submitted. *)
Lemma update_order_status_foreign_orders env rid order_id st w :
  (forall o, In o (orders (committed (server w))) ->
             o_order_id o = number_of order_id -> o_retailer_id o <> Some rid) ->
  orders (committed (server (snd (update_order_status env rid order_id st w))))
  = orders (committed (server w)).
Proof.
  intro Hown. unfold update_order_status.
  destruct (isdigit order_id); simpl; [|reflexivity].
  assert (Hsame :
    update_where
      (fun o => N.eqb (o_order_id o) (number_of order_id)
                && match o_retailer_id o with
                   | Some r => N.eqb r rid
                   | None => false
                   end)
      (set_o_status st (clock env 0)) (orders (committed (server w)))
    = orders (committed (server w))).
  { apply update_where_none. intros o Ho.
    destruct (N.eqb (o_order_id o) (number_of order_id)) eqn:E; [|reflexivity].
    apply N.eqb_eq in E. specialize (Hown o Ho E).
    destruct (o_retailer_id o) as [r|]; [|reflexivity]. simpl.
    destruct (N.eqb r rid) eqn:Er; [|reflexivity].
    apply N.eqb_eq in Er. subst. contradiction. }
  unfold execute.
  destruct (fault env 0); simpl; [reflexivity|].
  destruct (order_status_eqb st cancelled); simpl; [|exact Hsame].
  unfold fetch_df.
  destruct (cache_get String.eqb order_id (items_cache w)) as [[stamp items]|];
    [destruct (clock env 1 <? stamp + ttl)%Z|];
    simpl;
    repeat match goal with
    | |- context [fault env ?i] => destruct (fault env i); simpl
    | |- context [match ?l with [] => _ | _ :: _ => _ end] => destruct l; simpl
    end; exact Hsame.
Qed.

(** Without faults and without a cached item list, the owner's cancellation
    of an order sets the order to [cancelled] and restocks the batch of its
    first order item. *)
Lemma update_order_status_cancel_restocks env rid order_id w :
  (forall i, fault env i = false) ->
  isdigit order_id = true ->
  cache_get String.eqb order_id (items_cache w) = None ->
  forall bid rest,
    items_query order_id (clock env 1) (committed (server w)) = bid :: rest ->
    fst (update_order_status env rid order_id cancelled w) = CancelledAndRestocked bid
    /\ orders (committed (server (snd (update_order_status env rid order_id cancelled w))))
       = update_where
           (fun o => N.eqb (o_order_id o) (number_of order_id)
                     && match o_retailer_id o with
                        | Some r => N.eqb r rid
                        | None => false
                        end)
           (set_o_status cancelled (clock env 0)) (orders (committed (server w)))
    /\ inventory_batches
         (committed (server (snd (update_order_status env rid order_id cancelled w))))
       = update_where (fun b => N.eqb (b_batch_id b) bid) (set_b_status available)
           (inventory_batches (committed (server w))).
Proof.
  intros Hf Hd Hc bid rest Hitems.
  unfold update_order_status, execute, fetch_df. rewrite Hd. simpl.
  repeat (rewrite ?Hf, ?Hc; simpl).
  assert (Hq : items_query order_id (clock env 1)
                 (with_orders
                    (update_where
                       (fun o => N.eqb (o_order_id o) (number_of order_id)
                                 && match o_retailer_id o with
                                    | Some r => N.eqb r rid
                                    | None => false
                                    end)
                       (set_o_status cancelled (clock env 0))
                       (orders (committed (server w))))
                    (committed (server w)))
               = bid :: rest) by exact Hitems.
  rewrite Hq. simpl. repeat (rewrite ?Hf; simpl). repeat split.
Qed.

(** C4 at a failing input.  The owning retailer 10 cancels order 1, whose
    batch 7 is reserved.  The order UPDATE is committed on its own: the
    state after it has the order cancelled and the batch still reserved.
    When the restocking UPDATE then fails, that is the state which stays. *)
Theorem cancel_is_not_one_transaction :
  let s1 := snd (execute (at_time 50) 0 (update_order_of_retailer cancelled 1 10)
                   placed_server) in
  let r := update_order_status (fault_at 2 (fun _ => 50%Z)) 10 "1" cancelled
             placed_world in
  map o_status (orders (committed s1)) = [cancelled]
  /\ option_map b_status (lookup_batch 7 (committed s1)) = Some reserved
  /\ fst r = UpdateFailed (PersistenceError 2)
  /\ server (snd r) = s1.
Proof. repeat split. Qed.

(** C5 at a failing input.  Retailer 20, who does not own order 1 (retailer
    10 does), submits [cancelled] for it: the order is untouched, but its
    batch 7 goes from [reserved] back to [available] and the cancellation is
    reported as done. *)
Theorem foreign_retailer_cancel_restocks :
  let r := update_order_status (at_time 50) 20 "1" cancelled placed_world in
  map o_retailer_id (orders (committed placed_server)) = [Some 10%N]
  /\ option_map b_status (lookup_batch 7 (committed placed_server)) = Some reserved
  /\ fst r = CancelledAndRestocked 7
  /\ orders (committed (server (snd r))) = orders (committed placed_server)
  /\ map o_status (orders (committed (server (snd r)))) = [placed]
  /\ option_map b_status (lookup_batch 7 (committed (server (snd r)))) = Some available.
Proof. repeat split. Qed.

(** ** Record Donation *)

Ltac run_donation :=
  unfold record_donation, record_donation_cursor, bind, ret, cur_execute,
    conn_commit, select_donor_by_phone; simpl.

(** C8 (as amended).  A donation that is recorded: when no donor has a
    phone equal to the given one as the datastore compares phones, exactly
    one donor row is added, with a fresh id, and that id is used; when a
    donor has one, no donor row is added and the id of the first such donor
    is used, which is the case in particular when a donor has that very
    phone; in both cases exactly one donation row, for that donor, and
    exactly one inventory batch are added, the batch linked to the donation,
    with status [available] and an expiry date 35 days after the date of its
    collection time. *)
Theorem record_donation_rows :
  forall collate_eqb env rid donor_name donor_phone bt_id volume price s s',
    record_donation collate_eqb env rid donor_name donor_phone bt_id volume price s
    = (DonationRecorded, s') ->
    exists did,
      match find (phone_is collate_eqb donor_phone) (donors (committed s)) with
      | None =>
          did = next_donor_id (autoinc s)
          /\ donors (committed s')
             = donors (committed s) ++
               [ {| d_donor_id := did; d_full_name := donor_name;
                    d_phone := Some donor_phone; d_blood_type_id := bt_id |} ]
      | Some d =>
          did = d_donor_id d /\ donors (committed s') = donors (committed s)
      end
      /\ ((forall d p, In d (donors (committed s)) -> d_phone d = Some p ->
                       collate_eqb p donor_phone = false) ->
          donors (committed s')
          = donors (committed s) ++
            [ {| d_donor_id := next_donor_id (autoinc s); d_full_name := donor_name;
                 d_phone := Some donor_phone; d_blood_type_id := bt_id |} ])
      /\ ((forall p, collate_eqb p p = true) ->
          (exists d, In d (donors (committed s)) /\ d_phone d = Some donor_phone) ->
          donors (committed s') = donors (committed s)
          /\ exists d p, In d (donors (committed s)) /\ d_phone d = Some p
                         /\ collate_eqb p donor_phone = true /\ did = d_donor_id d)
      /\ donations (committed s')
         = donations (committed s) ++
           [ {| dn_donation_id := next_donation_id (autoinc s);
                dn_donor_id := Some did; dn_retailer_id := rid;
                dn_collected_at := clock env 2; dn_volume_ml := volume;
                dn_tested := true; dn_test_result := test_pass |} ]
      /\ inventory_batches (committed s')
         = inventory_batches (committed s) ++
           [ {| b_batch_id := next_batch_id (autoinc s);
                b_donation_id := Some (next_donation_id (autoinc s));
                b_retailer_id := rid; b_blood_type_id := bt_id;
                b_quantity_ml := volume; b_unit_count := 1;
                b_quality := quality_A; b_status := available;
                b_price_per_unit := price;
                b_collected_at := Some (clock env 3);
                b_expiry_date := Some (date_of (clock env 3) + 35)%Z |} ]
      /\ orders (committed s') = orders (committed s)
      /\ order_items (committed s') = order_items (committed s)
      /\ payments (committed s') = payments (committed s)
      /\ retailers (committed s') = retailers (committed s)
      /\ blood_types (committed s') = blood_types (committed s).
Proof.
  intros collate_eqb env rid donor_name donor_phone bt_id volume price s s'.
  run_donation.
  destruct (String.eqb donor_name "" || String.eqb donor_phone ""); [discriminate|].
  destruct (fault env 0); simpl; [discriminate|].
  destruct (find (phone_is collate_eqb donor_phone) (donors (committed s)))
    as [d|] eqn:Hfind; simpl.
  - destruct (fault env 2); simpl; [discriminate|].
    destruct (fault env 3); simpl; [discriminate|].
    destruct (fault env 4); simpl; [discriminate|].
    intro H. inversion H; subst; clear H. simpl.
    apply find_some in Hfind. destruct Hfind as [Hin Hmatch].
    unfold phone_is in Hmatch. destruct (d_phone d) as [p|] eqn:Hp; [|discriminate].
    exists (d_donor_id d).
    split; [split; reflexivity|]. split.
    { intro Hnone. rewrite (Hnone d p Hin Hp) in Hmatch. discriminate. }
    split.
    { intros _ _. split; [reflexivity|]. exists d, p. repeat split; assumption. }
    repeat split.
  - destruct (fault env 1); simpl; [discriminate|].
    destruct (fault env 2); simpl; [discriminate|].
    destruct (fault env 3); simpl; [discriminate|].
    destruct (fault env 4); simpl; [discriminate|].
    intro H. inversion H; subst; clear H. simpl.
    exists (next_donor_id (autoinc s)).
    split; [split; reflexivity|]. split; [intros _; reflexivity|]. split.
    { intros Hrefl [d [Hin Hp]]. exfalso.
      pose proof (find_none _ _ Hfind d Hin) as Hno.
      unfold phone_is in Hno. rewrite Hp, Hrefl in Hno. discriminate. }
    repeat split.
Qed.

(** A repeat donation from the phone of the sample donor. *)
Lemma record_donation_rows_witness :
  let s' := snd (record_donation ci_eqb (at_time 90000) 10 "Asha" "+911234567890" 1
                   450 200000 donated_server) in
  map d_donor_id (donors (committed donated_server)) = [1%N]
  /\ donors (committed s') = donors (committed donated_server)
  /\ map dn_donor_id (donations (committed s')) = [Some 1%N; Some 1%N]
  /\ map b_expiry_date (inventory_batches (committed s'))
     = [Some 40%Z; Some 40%Z; Some 35%Z; Some 36%Z].
Proof.
  destruct (@record_donation_rows ci_eqb (at_time 90000) 10 "Asha" "+911234567890" 1
              450 200000 donated_server
              (snd (record_donation ci_eqb (at_time 90000) 10 "Asha" "+911234567890"
                      1 450 200000 donated_server))
              eq_refl)
    as [did [Hd [_ [_ [Hdn [Hb _]]]]]].
  simpl in Hd. destruct Hd as [Hdid Hdonors].
  cbv zeta. split; [reflexivity|]. split; [exact Hdonors|].
  rewrite Hdn, Hb. subst did. split; reflexivity.
Defined.

(** C8, as stated, fails: a phone that no donor has, but that differs from
    a donor's phone only in the case of its letters, does not give a new
    donor.  After a donation under [+91-ABC], a donation under [+91-abc] is
    recorded for the donor of the first, and no donor row is added. *)
Theorem record_donation_case_variant :
  let s := lettered_server in
  let r := record_donation ci_eqb (at_time 90000) 10 "Asha" "+91-abc" 1 450 200000 s in
  map d_phone (donors (committed s)) = [Some "+91-ABC"%string]
  /\ (forall d, In d (donors (committed s)) -> d_phone d <> Some "+91-abc"%string)
  /\ fst r = DonationRecorded
  /\ donors (committed (snd r)) = donors (committed s)
  /\ map dn_donor_id (donations (committed (snd r))) = [Some 1%N; Some 1%N].
Proof.
  cbv zeta. split; [reflexivity|]. split.
  - intros d [Hd|[]]. subst d. discriminate.
  - repeat split.
Qed.

(** With a name and a phone and without faults, a donation is recorded. *)
Lemma record_donation_succeeds collate_eqb env rid donor_name donor_phone bt_id volume
    price s :
  (forall i, fault env i = false) ->
  donor_name <> ""%string -> donor_phone <> ""%string ->
  fst (record_donation collate_eqb env rid donor_name donor_phone bt_id volume price s)
  = DonationRecorded.
Proof.
  intros Hf Hn Hp. run_donation.
  apply String.eqb_neq in Hn, Hp. rewrite Hn, Hp. simpl.
  rewrite Hf. simpl.
  destruct (find _ _); simpl; repeat (rewrite ?Hf; simpl); reflexivity.
Qed.

(** A donation that fails, at whichever interaction, leaves the committed
    tables as they were. *)
Lemma record_donation_atomic collate_eqb env rid donor_name donor_phone bt_id volume
    price s e s' :
  record_donation collate_eqb env rid donor_name donor_phone bt_id volume price s
  = (DonationFailed e, s') ->
  committed s' = committed s.
Proof.
  run_donation.
  destruct (String.eqb donor_name "" || String.eqb donor_phone ""); [discriminate|].
  destruct (fault env 0); simpl; [intro H; inversion H; reflexivity|].
  destruct (find _ _); simpl;
    repeat match goal with
    | |- context [fault env ?i] =>
        destruct (fault env i); simpl; [intro H; inversion H; reflexivity|]
    end; discriminate.
Qed.

(** ** Browse & Order listing *)

Lemma insert_by_In {A} (leb : A -> A -> bool) (x y : A) (l : list A) :
  In y (insert_by leb x l) -> y = x \/ In y l.
Proof.
  induction l as [|z l IH]; simpl.
  - intros [H|[]]; left; symmetry; exact H.
  - destruct (leb x z); simpl.
    + intros [H|H]; [left; symmetry; exact H|right; exact H].
    + intros [H|H]; [right; left; exact H|].
      destruct (IH H) as [E|E]; [left; exact E|right; right; exact E].
Qed.

Lemma order_by_In {A} (leb : A -> A -> bool) (y : A) (l : list A) :
  In y (order_by leb l) -> In y l.
Proof.
  induction l as [|x l IH]; simpl; [tauto|].
  intro H. apply insert_by_In in H. destruct H as [H|H].
  - left; symmetry; exact H.
  - right; apply IH; exact H.
Qed.

(** The WHERE clause: a row of the query result comes from a batch that the
    tables hold as available and not past its expiry date. *)
Lemma browse_query_purchasable sql_like collate_leb k now t row :
  In row (browse_query sql_like collate_leb k now t) ->
  exists b,
    In b (inventory_batches t)
    /\ b_batch_id b = br_batch_id row
    /\ b_expiry_date b = br_expiry_date row
    /\ b_status b = available
    /\ match b_expiry_date b with
       | None => True
       | Some d => (date_of now <= d)%Z
       end.
Proof.
  unfold browse_query. intro H. apply order_by_In in H.
  apply in_flat_map in H. destruct H as [b [Hb H]].
  unfold browse_batch in H.
  apply in_flat_map in H. destruct H as [r [_ H]].
  apply in_flat_map in H. destruct H as [bt [_ H]].
  destruct (purchasable (date_of now) b) eqn:Hp; simpl in H; [|destruct H].
  destruct (browse_filters sql_like k b r bt); simpl in H; [|destruct H].
  destruct H as [H|[]]. subst row. exists b.
  unfold purchasable in Hp. apply andb_true_iff in Hp. destruct Hp as [Hs He].
  apply batch_status_eqb_eq in Hs.
  repeat split; auto.
  destruct (b_expiry_date b); [apply Z.leb_le; exact He|exact I].
Qed.



(** The other operations leave the cached listings alone. *)
Lemma submit_order_browse_cache env user_id batch_id notes w :
  browse_cache (snd (submit_order env user_id batch_id notes w)) = browse_cache w.
Proof.
  unfold submit_order.
  destruct (place_order_form env user_id batch_id notes (server w)). reflexivity.
Qed.

Lemma my_orders_tab_browse_cache env user_id clicked w :
  browse_cache (snd (my_orders_tab env user_id clicked w)) = browse_cache w.
Proof.
  unfold my_orders_tab.
  destruct (fetch_df N.eqb orders_query env 0 user_id (orders_cache w) (server w))
    as [[e|rows] c]; [reflexivity|].
  destruct (pay_buttons env clicked [] rows (server w)). reflexivity.
Qed.

Lemma update_order_status_browse_cache env rid order_id st w :
  browse_cache (snd (update_order_status env rid order_id st w)) = browse_cache w.
Proof.
  unfold update_order_status.
  destruct (isdigit order_id); simpl; [|reflexivity].
  destruct (execute env 0 _ (server w)) as [[e|u] s1]; [reflexivity|].
  destruct (order_status_eqb st cancelled); [|reflexivity].
  destruct (fetch_df String.eqb items_query env 1 order_id (items_cache w) s1)
    as [[e|[|bid rest]] c]; try reflexivity.
  destruct (execute env 2 _ s1) as [[e|u2] s2]; reflexivity.
Qed.




(** ** Two customers placing orders at the same time *)

Section SameBatch.

Variable rq : Sid -> Request.
Variable s : Server.
Variable b : InventoryBatch.

Hypothesis same_batch : rq_batch (rq Second) = rq_batch (rq First).
Hypothesis batch_found : lookup_batch (rq_batch (rq First)) (committed s) = Some b.
Hypothesis batch_available : b_status b = available.

Lemma batch_after_commit ws1 ws2 ws3 :
  lookup_batch (rq_batch (rq First))
    (apply_writes
       [WOrder ws1; WItem ws2; WPayment ws3;
        WBatchStatus reserved (rq_batch (rq First))] (committed s))
  = Some (set_b_status reserved b).
Proof.
  unfold lookup_batch. simpl. apply lookup_batch_update. exact batch_found.
Qed.

(** Evaluate the innermost turn of the goal to the configuration it gives. *)
Ltac one_turn :=
  match goal with
  | |- context [turn rq ?c ?i] =>
      lazymatch c with
      | context [turn] => fail
      | _ => idtac
      end;
      let E := fresh "E" in
      eassert (E : turn rq c i = _);
      [ unfold turn, step;
        repeat first
          [ rewrite same_batch
          | rewrite batch_found
          | rewrite batch_after_commit
          | rewrite batch_available
          | rewrite N.eqb_refl
          | progress cbn -[lookup_batch apply_writes] ];
        reflexivity
      | rewrite E; clear E ]
  end.

Ltac interleave :=
  unfold serial, run; cbn [repeat app fold_left other];
  unfold start, fresh_session; repeat one_turn.

(** Whatever run is named next, the configuration stays one of a serial
    execution. *)
Lemma turn_serial i k m x :
  position_ok (i, k, m) = true ->
  turn rq (serial rq s i k m) x
  = serial rq s (fst (fst (next_position (i, k, m) x)))
      (snd (fst (next_position (i, k, m) x))) (snd (next_position (i, k, m) x)).
Proof.
  intro Hok.
  destruct k as [|[|[|[|[|[|[|k]]]]]]]; try discriminate Hok;
    destruct m as [|[|[|m]]]; try discriminate Hok;
    destruct i, x; cbn [next_position Nat.ltb Nat.leb fst snd];
    interleave; reflexivity.
Qed.

Lemma next_position_ok p x :
  position_ok p = true -> position_ok (next_position p x) = true.
Proof.
  destruct p as [[i k] m].
  destruct k as [|[|[|[|[|[|[|k]]]]]]]; try discriminate;
    destruct m as [|[|[|m]]]; try discriminate;
    destruct i, x; intros _; reflexivity.
Qed.

(** Every interleaving of the two runs reaches a configuration that a
    serial execution reaches. *)
Lemma run_serial sched :
  forall i k m,
    position_ok (i, k, m) = true ->
    exists i' k' m',
      position_ok (i', k', m') = true
      /\ run rq sched (serial rq s i k m) = serial rq s i' k' m'.
Proof.
  induction sched as [|x sched IH]; intros i k m Hok.
  - exists i, k, m. split; [exact Hok|reflexivity].
  - change (run rq (x :: sched) (serial rq s i k m))
      with (run rq sched (turn rq (serial rq s i k m) x)).
    rewrite (@turn_serial i k m x Hok).
    apply IH.
    pose proof (@next_position_ok (i, k, m) x Hok) as H.
    destruct (next_position (i, k, m) x) as [[i1 k1] m1]. exact H.
Qed.

Lemma finished_position i k m :
  position_ok (i, k, m) = true ->
  all_finished (serial rq s i k m) = true ->
  k = 6%nat /\ m = 2%nat.
Proof.
  intro Hok.
  destruct k as [|[|[|[|[|[|[|k]]]]]]]; try discriminate Hok;
    destruct m as [|[|[|m]]]; try discriminate Hok;
    destruct i; interleave; cbn; intro H; try discriminate H;
    split; reflexivity.
Qed.

(** C9. Two placement attempts on the same available batch, their
    interactions interleaved in any order: when both have finished, one of
    them has placed an order and the other has been told that the batch is
    not available (it found it reserved); the committed tables hold exactly
    one more order, order item and payment than before, those of the
    successful attempt, and the batch is reserved. *)
Theorem concurrent_placement_one_winner sched :
  all_finished (run rq sched (start s)) = true ->
  exists winner,
    pc (sess (run rq sched (start s)) winner)
      = Finished (OrderPlaced (next_order_id (autoinc s)))
    /\ pc (sess (run rq sched (start s)) (other winner))
      = Finished (BatchNotAvailable reserved)
    /\ orders (committed (srv (run rq sched (start s))))
       = orders (committed s) ++
         [ {| o_order_id := next_order_id (autoinc s);
              o_customer_id := rq_user (rq winner);
              o_retailer_id := Some (b_retailer_id b);
              o_total_amount := b_price_per_unit b; o_status := placed;
              o_placed_at := rq_clock (rq winner) 1; o_modified_at := None;
              o_notes := Some (rq_notes (rq winner)) |} ]
    /\ order_items (committed (srv (run rq sched (start s))))
       = order_items (committed s) ++
         [ {| oi_order_item_id := next_order_item_id (autoinc s);
              oi_order_id := next_order_id (autoinc s);
              oi_batch_id := b_batch_id b;
              oi_blood_type_id := b_blood_type_id b;
              oi_quantity_ml := b_quantity_ml b;
              oi_unit_price := b_price_per_unit b;
              oi_subtotal := b_price_per_unit b |} ]
    /\ payments (committed (srv (run rq sched (start s))))
       = payments (committed s) ++
         [ {| p_payment_id := next_payment_id (autoinc s);
              p_order_id := next_order_id (autoinc s);
              p_amount := b_price_per_unit b; p_method := bank_transfer;
              p_status := pending |} ]
    /\ inventory_batches (committed (srv (run rq sched (start s))))
       = update_where (fun x => N.eqb (b_batch_id x) (rq_batch (rq First)))
           (set_b_status reserved) (inventory_batches (committed s))
    /\ lookup_batch (rq_batch (rq First)) (committed (srv (run rq sched (start s))))
       = Some (set_b_status reserved b).
Proof.
  destruct (@run_serial sched First 0%nat 0%nat eq_refl) as [i [k [m [Hok Hrun]]]].
  change (serial rq s First 0 0) with (start s) in Hrun.
  rewrite Hrun. intro Hfin.
  destruct (@finished_position i k m Hok Hfin) as [Hk Hm]. subst k m.
  exists i. clear Hrun Hfin Hok.
  destruct i; interleave; cbn -[lookup_batch apply_writes];
    rewrite ?same_batch, ?batch_after_commit; repeat split; reflexivity.
Qed.

(** The winner's transaction is the sequential handler: the server it
    leaves is the one a placement made alone would leave. *)
Lemma serial_is_place_order i :
  srv (serial rq s i 6 2)
  = snd (place_order (no_faults (rq_clock (rq i))) (rq_user (rq i))
           (rq_batch (rq First)) (rq_notes (rq i)) s)
  /\ pc (sess (serial rq s i 6 2) i)
     = Finished (fst (place_order (no_faults (rq_clock (rq i))) (rq_user (rq i))
                        (rq_batch (rq First)) (rq_notes (rq i)) s)).
Proof.
  unfold place_order, place_order_cursor, bind, ret, cur_execute, conn_commit,
    select_batch_for_update. cbn -[lookup_batch apply_writes serial].
  rewrite batch_found, batch_available. cbn -[lookup_batch apply_writes serial].
  destruct i; interleave; cbn; split; reflexivity.
Qed.

(** No interleaving gets stuck: whatever has happened, the runs can be
    scheduled on so that both finish. *)
Lemma can_finish sched :
  exists more, all_finished (run rq (sched ++ more) (start s)) = true.
Proof.
  destruct (@run_serial sched First 0%nat 0%nat eq_refl) as [i [k [m [Hok Hrun]]]].
  change (serial rq s First 0 0) with (start s) in Hrun.
  exists (repeat i 6 ++ repeat (other i) 2).
  replace (run rq (sched ++ repeat i 6 ++ repeat (other i) 2) (start s))
    with (run rq (repeat i 6 ++ repeat (other i) 2) (run rq sched (start s)))
    by (unfold run; rewrite !fold_left_app; reflexivity).
  rewrite Hrun. clear Hrun.
  destruct k as [|[|[|[|[|[|[|k]]]]]]]; try discriminate Hok;
    destruct m as [|[|[|m]]]; try discriminate Hok;
    destruct i; interleave; reflexivity.
Qed.

End SameBatch.

Lemma concurrent_placement_one_winner_witness :
  exists winner,
    pc (sess (run sample_requests sample_schedule (start sample_server)) winner)
      = Finished (OrderPlaced 1)
    /\ pc (sess (run sample_requests sample_schedule (start sample_server))
             (other winner))
      = Finished (BatchNotAvailable reserved)
    /\ map o_customer_id
         (orders (committed (srv (run sample_requests sample_schedule
                                    (start sample_server)))))
       = [rq_user (sample_requests winner)].
Proof.
  destruct (@concurrent_placement_one_winner sample_requests sample_server
              (sample_batch 7 available) eq_refl eq_refl eq_refl
              sample_schedule eq_refl)
    as [winner [H1 [H2 [H3 _]]]].
  exists winner. split; [exact H1|]. split; [exact H2|].
  rewrite H3. reflexivity.
Defined.

(** ** Primary keys stay unique *)

Lemma NoDup_snoc {A} (l : list A) (x : A) :
  NoDup l -> ~ In x l -> NoDup (l ++ [x]).
Proof.
  induction l as [|y l IH]; simpl; intros Hnd Hx.
  - constructor; [intros []|constructor].
  - inversion Hnd; subst. constructor.
    + intro Hin. apply in_app_or in Hin. destruct Hin as [Hin|[Hin|[]]].
      * contradiction.
      * subst. apply Hx. left. reflexivity.
    + apply IH; [assumption|]. intro Hin. apply Hx. right. exact Hin.
Qed.

Lemma keys_below_mono {A} (key : A -> N) next next' rows :
  (next <= next')%N -> keys_below key next rows -> keys_below key next' rows.
Proof.
  intros Hle [Hnd Hlt]. split; [exact Hnd|].
  eapply Forall_impl; [|exact Hlt]. simpl. intros r Hr. lia.
Qed.

Lemma keys_below_fresh {A} (key : A -> N) next rows :
  keys_below key next rows -> ~ In next (map key rows).
Proof.
  intros [_ Hlt] Hin. apply in_map_iff in Hin. destruct Hin as [r [Hk Hr]].
  rewrite Forall_forall in Hlt. specialize (Hlt r Hr). lia.
Qed.

Lemma keys_below_snoc {A} (key : A -> N) next rows r :
  keys_below key next rows -> key r = next ->
  keys_below key (next + 1) (rows ++ [r]).
Proof.
  intros Hk Hr. pose proof (keys_below_fresh Hk) as Hfresh.
  destruct Hk as [Hnd Hlt]. split.
  - rewrite map_app. simpl. apply NoDup_snoc; [exact Hnd|]. rewrite Hr. exact Hfresh.
  - apply Forall_app. split.
    + eapply Forall_impl; [|exact Hlt]. simpl. intros x Hx. lia.
    + constructor; [lia|constructor].
Qed.

Lemma keys_below_update {A} (key : A -> N) next cond f rows :
  (forall r, key (f r) = key r) ->
  keys_below key next rows -> keys_below key next (update_where cond f rows).
Proof.
  intros Hf [Hnd Hlt].
  assert (Hmap : map key (update_where cond f rows) = map key rows).
  { unfold update_where. rewrite map_map. apply map_ext.
    intro r. destruct (cond r); [apply Hf|reflexivity]. }
  split; [rewrite Hmap; exact Hnd|].
  unfold update_where. rewrite Forall_map.
  eapply Forall_impl; [|exact Hlt]. simpl. intros r Hr.
  destruct (cond r); [rewrite Hf|]; exact Hr.
Qed.

Ltac split6 := split; [|split; [|split; [|split; [|split]]]].

Ltac one_key :=
  first
    [ assumption
    | apply keys_below_snoc; [assumption|reflexivity]
    | apply keys_below_update; [intro; reflexivity|assumption]
    | eapply keys_below_mono; [|eassumption]; lia ].

Ltac keys :=
  intros;
  repeat match goal with
  | H : conn_keyed _ |- _ => destruct H as [? ?]
  | H : well_keyed _ |- _ => unfold well_keyed in H
  | H : keyed _ _ |- _ => destruct H as (? & ? & ? & ? & ? & ?)
  end;
  unfold conn_keyed, well_keyed; simpl;
  try (split; split6; simpl; one_key);
  try (split6; simpl; one_key).

Lemma select_batch_keeps_keys batch_id :
  stmt_keeps_keys (select_batch_for_update batch_id).
Proof. intros now c H. exact H. Qed.

Lemma insert_order_keeps_keys user_id retailer_id total st notes :
  stmt_keeps_keys (insert_order user_id retailer_id total st notes).
Proof. intros now c H. unfold insert_order. keys. Qed.

Lemma insert_order_item_keeps_keys oid bid bt q up sub :
  stmt_keeps_keys (insert_order_item oid bid bt q up sub).
Proof. intros now c H. unfold insert_order_item. keys. Qed.

Lemma insert_payment_keeps_keys oid amount m st :
  stmt_keeps_keys (insert_payment oid amount m st).
Proof. intros now c H. unfold insert_payment. keys. Qed.

Lemma update_batch_status_keeps_keys st bid :
  stmt_keeps_keys (update_batch_status st bid).
Proof. intros now c H. unfold update_batch_status. keys. Qed.

Lemma confirm_order_keeps_keys oid : stmt_keeps_keys (confirm_order oid).
Proof. intros now c H. unfold confirm_order. keys. Qed.

Lemma complete_payment_keeps_keys pid : stmt_keeps_keys (complete_payment pid).
Proof. intros now c H. unfold complete_payment. keys. Qed.

Lemma update_order_of_retailer_keeps_keys st oid rid :
  stmt_keeps_keys (update_order_of_retailer st oid rid).
Proof. intros now c H. unfold update_order_of_retailer. keys. Qed.

Lemma select_donor_keeps_keys collate_eqb phone :
  stmt_keeps_keys (select_donor_by_phone collate_eqb phone).
Proof. intros now c H. exact H. Qed.

Lemma insert_donor_keeps_keys name phone bt :
  stmt_keeps_keys (insert_donor name phone bt).
Proof. intros now c H. unfold insert_donor. keys. Qed.

Lemma insert_donation_keeps_keys did rid vol res :
  stmt_keeps_keys (insert_donation did rid vol res).
Proof. intros now c H. unfold insert_donation. keys. Qed.

Lemma insert_donated_batch_keeps_keys dn rid bt q ql st price :
  stmt_keeps_keys (insert_donated_batch dn rid bt q ql st price).
Proof. intros now c H. unfold insert_donated_batch. keys. Qed.

Lemma insert_manual_batch_keeps_keys rid bt q ql st price expiry :
  stmt_keeps_keys (insert_manual_batch rid bt q ql st price expiry).
Proof. intros now c H. unfold insert_manual_batch. keys. Qed.

Lemma ret_keeps_keys {A} (a : A) : tx_keeps_keys (ret a).
Proof. intros c H. exact H. Qed.

Lemma bind_keeps_keys {A B} (m : Tx A) (k : A -> Tx B) :
  tx_keeps_keys m -> (forall a, tx_keeps_keys (k a)) -> tx_keeps_keys (bind m k).
Proof.
  intros Hm Hk c Hc. unfold bind. specialize (Hm c Hc).
  destruct (m c) as [[e|a] c']; simpl in *; [exact Hm|].
  apply Hk. exact Hm.
Qed.

Lemma cur_execute_keeps_keys {A} env i (q : Stmt A) :
  stmt_keeps_keys q -> tx_keeps_keys (cur_execute env i q).
Proof.
  intros Hq c Hc. unfold cur_execute. destruct (fault env i); [exact Hc|].
  specialize (Hq (clock env i) c Hc).
  destruct (q (clock env i) c) as [a c']. exact Hq.
Qed.

Lemma conn_commit_keeps_keys env i : tx_keeps_keys (conn_commit env i).
Proof.
  intros c Hc. unfold conn_commit. destruct (fault env i); simpl; [exact Hc|].
  destruct Hc as [_ Hv]. split; exact Hv.
Qed.

Lemma get_conn_keyed s : well_keyed s -> conn_keyed (get_conn s).
Proof. intro H. split; exact H. Qed.

Lemma conn_close_keyed c : conn_keyed c -> well_keyed (conn_close c).
Proof. intros [H _]. exact H. Qed.

Lemma conn_rollback_keyed c : conn_keyed c -> conn_keyed (conn_rollback c).
Proof. intros [H _]. split; exact H. Qed.

Lemma execute_keeps_keys env i q s :
  stmt_keeps_keys q -> well_keyed s -> well_keyed (snd (execute env i q s)).
Proof.
  intros Hq Hs. unfold execute. destruct (fault env i); [exact Hs|]. simpl.
  specialize (Hq (clock env i) (get_conn s) (get_conn_keyed Hs)).
  destruct Hq as [_ Hv]. exact Hv.
Qed.

Create HintDb keys.
#[local] Hint Resolve ret_keeps_keys cur_execute_keeps_keys conn_commit_keeps_keys
  select_batch_keeps_keys insert_order_keeps_keys insert_order_item_keeps_keys
  insert_payment_keeps_keys update_batch_status_keeps_keys confirm_order_keeps_keys
  complete_payment_keeps_keys update_order_of_retailer_keeps_keys
  select_donor_keeps_keys insert_donor_keeps_keys insert_donation_keeps_keys
  insert_donated_batch_keeps_keys insert_manual_batch_keeps_keys : keys.

Ltac tx_keys :=
  repeat first
    [ apply bind_keeps_keys; [|intro]
    | solve [auto with keys]
    | match goal with
      | |- tx_keeps_keys (match ?x with _ => _ end) => destruct x
      | |- tx_keeps_keys (if ?x then _ else _) => destruct x
      end ].

Lemma place_order_cursor_keeps_keys env user_id batch_id notes :
  tx_keeps_keys (place_order_cursor env user_id batch_id notes).
Proof. unfold place_order_cursor. tx_keys. Qed.

Lemma record_donation_cursor_keeps_keys collate_eqb env rid name phone bt vol price :
  tx_keeps_keys (record_donation_cursor collate_eqb env rid name phone bt vol price).
Proof. unfold record_donation_cursor. tx_keys. Qed.

Lemma place_order_keeps_keys env user_id batch_id notes s :
  well_keyed s -> well_keyed (snd (place_order env user_id batch_id notes s)).
Proof.
  intro Hs. unfold place_order.
  pose proof (@place_order_cursor_keeps_keys env user_id batch_id notes
                (get_conn s) (get_conn_keyed Hs)) as H.
  destruct (place_order_cursor env user_id batch_id notes (get_conn s))
    as [[e|out] c]; apply conn_close_keyed; exact H.
Qed.

Lemma record_donation_keeps_keys collate_eqb env rid name phone bt vol price s :
  well_keyed s ->
  well_keyed (snd (record_donation collate_eqb env rid name phone bt vol price s)).
Proof.
  intro Hs. unfold record_donation.
  destruct (String.eqb name "" || String.eqb phone ""); [exact Hs|].
  assert (Htx : tx_keeps_keys
                  (record_donation_cursor collate_eqb env rid name phone bt vol price ;;;
                   conn_commit env 4)).
  { apply bind_keeps_keys; [apply record_donation_cursor_keeps_keys|].
    intro. apply conn_commit_keeps_keys. }
  specialize (Htx (get_conn s) (get_conn_keyed Hs)).
  destruct ((record_donation_cursor collate_eqb env rid name phone bt vol price ;;;
             conn_commit env 4) (get_conn s)) as [[e|u] c]; simpl in *.
  - destruct Htx as [H _]. exact H.
  - destruct Htx as [H _]. exact H.
Qed.

Lemma simulate_pay_now_keeps_keys env row s :
  well_keyed s -> well_keyed (snd (simulate_pay_now env row s)).
Proof.
  intro Hs. unfold simulate_pay_now.
  assert (Htx : tx_keeps_keys
                  (cur_execute env 1 (confirm_order (o_order_id (or_order row))) ;;;
                   cur_execute env 2 (complete_payment (or_payment_id row)) ;;;
                   conn_commit env 3)) by tx_keys.
  specialize (Htx (get_conn s) (get_conn_keyed Hs)).
  destruct ((cur_execute env 1 (confirm_order (o_order_id (or_order row))) ;;;
             cur_execute env 2 (complete_payment (or_payment_id row)) ;;;
             conn_commit env 3) (get_conn s)) as [[e|u] c]; simpl in *.
  - destruct Htx as [H _]. exact H.
  - destruct Htx as [H _]. exact H.
Qed.

Lemma pay_buttons_keeps_keys env clicked rows :
  forall seen s, well_keyed s -> well_keyed (snd (pay_buttons env clicked seen rows s)).
Proof.
  induction rows as [|row rest IH]; simpl; intros seen s Hs; [exact Hs|].
  destruct (shows_pay_button row); [|apply IH; exact Hs].
  destruct (existsb (N.eqb (o_order_id (or_order row))) seen); [exact Hs|].
  destruct (match clicked with Some k => N.eqb k (o_order_id (or_order row))
                             | None => false end); [|apply IH; exact Hs].
  pose proof (@simulate_pay_now_keeps_keys env row s Hs) as Hpay.
  destruct (simulate_pay_now env row s) as [[e|u] s1]; simpl in *; [|exact Hpay].
  specialize (IH (o_order_id (or_order row) :: seen) s1 Hpay).
  destruct (pay_buttons env clicked (o_order_id (or_order row) :: seen) rest s1).
  exact IH.
Qed.

Lemma add_inventory_keeps_keys env rid btype_map btype qty price quality expiry s :
  well_keyed s ->
  well_keyed (snd (add_inventory env rid btype_map btype qty price quality expiry s)).
Proof.
  intro Hs. unfold add_inventory.
  destruct (match btype with Some code => dict_get code btype_map | None => None end)
    as [bt_id|]; [|exact Hs].
  pose proof (@execute_keeps_keys env 0
                (insert_manual_batch rid bt_id qty quality available price expiry) s
                (@insert_manual_batch_keeps_keys _ _ _ _ _ _ _) Hs) as H.
  destruct (execute env 0 _ s) as [[e|u] s']; exact H.
Qed.

(** X1. Every handler that writes keeps the primary keys of the six
    AUTO_INCREMENT tables pairwise different and below their counters,
    whether it succeeds, is refused or fails part-way and is rolled back. *)
Theorem handlers_keep_keys :
  forall env s w,
    well_keyed s -> well_keyed (server w) ->
    (forall user_id batch_id notes,
        well_keyed (snd (place_order_form env user_id batch_id notes s)))
    /\ (forall collate_eqb rid name phone bt vol price,
           well_keyed (snd (record_donation collate_eqb env rid name phone bt vol
                              price s)))
    /\ (forall rid btype_map btype qty price quality expiry,
           well_keyed (snd (add_inventory env rid btype_map btype qty price quality
                              expiry s)))
    /\ (forall user_id clicked,
           well_keyed (server (snd (my_orders_tab env user_id clicked w))))
    /\ (forall rid order_id st,
           well_keyed (server (snd (update_order_status env rid order_id st w)))).
Proof.
  intros env s w Hs Hw. split; [|split; [|split; [|split]]]; intros.
  - unfold place_order_form. destruct (negb (isdigit batch_id)); [exact Hs|].
    apply place_order_keeps_keys. exact Hs.
  - apply record_donation_keeps_keys. exact Hs.
  - apply add_inventory_keeps_keys. exact Hs.
  - unfold my_orders_tab.
    destruct (fetch_df N.eqb orders_query env 0 user_id (orders_cache w) (server w))
      as [[e|rows] c]; [exact Hw|].
    pose proof (@pay_buttons_keeps_keys env clicked rows [] (server w) Hw) as H.
    destruct (pay_buttons env clicked [] rows (server w)). exact H.
  - unfold update_order_status.
    destruct (negb (isdigit order_id)); [exact Hw|].
    pose proof (@execute_keeps_keys env 0
                  (update_order_of_retailer st (number_of order_id) rid) (server w)
                  (@update_order_of_retailer_keeps_keys _ _ _) Hw) as H1.
    destruct (execute env 0 _ (server w)) as [[e|u] s1]; simpl in *; [exact H1|].
    destruct (order_status_eqb st cancelled); [|exact H1].
    destruct (fetch_df String.eqb items_query env 1 order_id (items_cache w) s1)
      as [[e|[|bid rest]] c]; try exact H1.
    pose proof (@execute_keeps_keys env 2 (update_batch_status available bid) s1
                  (@update_batch_status_keeps_keys _ _) H1) as H2.
    destruct (execute env 2 _ s1) as [[e|u2] s2]; exact H2.
Qed.

Lemma sample_server_keyed : well_keyed sample_server.
Proof.
  unfold well_keyed, keyed, keys_below. simpl.
  repeat split; repeat constructor; simpl; try lia; intuition discriminate.
Qed.

Lemma placed_server_keyed : well_keyed placed_server.
Proof. apply place_order_keeps_keys, sample_server_keyed. Qed.

Lemma handlers_keep_keys_witness :
  well_keyed (snd (place_order_form (fault_at 3 (fun _ => 5%Z)) 3 "7" "" sample_server))
  /\ well_keyed (server (snd (update_order_status (at_time 50) 10 "1" cancelled
                                placed_world))).
Proof.
  destruct (@handlers_keep_keys (fault_at 3 (fun _ => 5%Z)) sample_server placed_world
              sample_server_keyed placed_server_keyed) as [H1 _].
  destruct (@handlers_keep_keys (at_time 50) sample_server placed_world
              sample_server_keyed placed_server_keyed) as [_ [_ [_ [_ H5]]]].
  split; [apply H1|apply H5].
Defined.

(** ** Manual stock, the listing and the expiry date *)

Lemma find_fresh {A} (key : A -> N) next rows :
  keys_below key next rows ->
  find (fun r => N.eqb (key r) next) rows = None.
Proof.
  intros Hk. pose proof (keys_below_fresh Hk) as Hfresh.
  destruct (find (fun r => N.eqb (key r) next) rows) as [r|] eqn:E; [|reflexivity].
  apply find_some in E. destruct E as [Hin Heq]. apply N.eqb_eq in Heq.
  exfalso. apply Hfresh. rewrite <- Heq. apply in_map. exact Hin.
Qed.

Lemma find_snoc {A} (p : A -> bool) rows r :
  find p (rows ++ [r])
  = match find p rows with
    | Some x => Some x
    | None => if p r then Some r else None
    end.
Proof.
  induction rows as [|x rows IH]; simpl; [reflexivity|].
  destruct (p x); [reflexivity|exact IH].
Qed.

(** The row found under a key is the only row with that key. *)
Lemma find_unique {A} (key : A -> N) next rows r :
  keys_below key next rows -> In r rows ->
  find (fun x => N.eqb (key x) (key r)) rows = Some r.
Proof.
  intros [Hnd _]. induction rows as [|x rows IH]; simpl; intro Hin; [destruct Hin|].
  simpl in Hnd. inversion Hnd as [|k ks Hnotin Hnd']; subst.
  destruct Hin as [Hx|Hin].
  - subst. rewrite N.eqb_refl. reflexivity.
  - destruct (N.eqb (key x) (key r)) eqn:E.
    + apply N.eqb_eq in E. exfalso. apply Hnotin. rewrite E. apply in_map. exact Hin.
    + apply IH; assumption.
Qed.

Lemma add_inventory_added env rid btype_map btype qty price quality expiry s s' :
  add_inventory env rid btype_map btype qty price quality expiry s
  = (InventoryAdded, s') ->
  exists bt_id,
    match btype with Some code => dict_get code btype_map | None => None end
    = Some bt_id
    /\ committed s'
       = with_inventory_batches
           (inventory_batches (committed s) ++
            [ {| b_batch_id := next_batch_id (autoinc s); b_donation_id := None;
                 b_retailer_id := rid; b_blood_type_id := bt_id;
                 b_quantity_ml := qty; b_unit_count := 1; b_quality := quality;
                 b_status := available; b_price_per_unit := price;
                 b_collected_at := Some (clock env 0);
                 b_expiry_date := Some expiry |} ]) (committed s)
    /\ autoinc s' = bump_batch (autoinc s).
Proof.
  unfold add_inventory, execute.
  destruct (match btype with Some code => dict_get code btype_map | None => None end)
    as [bt_id|]; [|discriminate].
  destruct (fault env 0); [discriminate|]. simpl.
  intro H. inversion H; subst. exists bt_id. repeat split.
Qed.

(** X2. A batch added by hand gets an id under which no batch was found
    before and is found afterwards, as an [available] batch of one unit
    without a donation and with the expiry date the operator gave; every
    other id finds what it found before; and the new batch can be ordered
    right away. *)
Theorem add_inventory_then_lookup :
  forall env rid btype_map btype qty price quality expiry s s',
    well_keyed s ->
    add_inventory env rid btype_map btype qty price quality expiry s
    = (InventoryAdded, s') ->
    exists bt_id,
      match btype with Some code => dict_get code btype_map | None => None end
      = Some bt_id
      /\ lookup_batch (next_batch_id (autoinc s)) (committed s) = None
      /\ lookup_batch (next_batch_id (autoinc s)) (committed s')
         = Some {| b_batch_id := next_batch_id (autoinc s); b_donation_id := None;
                   b_retailer_id := rid; b_blood_type_id := bt_id;
                   b_quantity_ml := qty; b_unit_count := 1; b_quality := quality;
                   b_status := available; b_price_per_unit := price;
                   b_collected_at := Some (clock env 0);
                   b_expiry_date := Some expiry |}
      /\ (forall other, other <> next_batch_id (autoinc s) ->
            lookup_batch other (committed s') = lookup_batch other (committed s))
      /\ (forall env' user_id notes,
            (forall i, fault env' i = false) ->
            fst (place_order env' user_id (next_batch_id (autoinc s)) notes s')
            = OrderPlaced (next_order_id (autoinc s))).
Proof.
  intros env rid btype_map btype qty price quality expiry s s' Hs Hadd.
  destruct (add_inventory_added _ _ _ _ _ _ _ _ _ Hadd) as [bt_id [Hbt [Hcom Hauto]]].
  destruct Hs as (_ & _ & Hb & _).
  pose proof (find_fresh Hb) as Hnone.
  assert (Hnew : lookup_batch (next_batch_id (autoinc s)) (committed s')
                 = Some {| b_batch_id := next_batch_id (autoinc s);
                           b_donation_id := None;
                           b_retailer_id := rid; b_blood_type_id := bt_id;
                           b_quantity_ml := qty; b_unit_count := 1;
                           b_quality := quality; b_status := available;
                           b_price_per_unit := price;
                           b_collected_at := Some (clock env 0);
                           b_expiry_date := Some expiry |}).
  { unfold lookup_batch. rewrite Hcom. simpl. rewrite find_snoc, Hnone. simpl.
    rewrite N.eqb_refl. reflexivity. }
  exists bt_id. split; [exact Hbt|]. split; [exact Hnone|]. split; [exact Hnew|].
  split.
  - intros other Hother. unfold lookup_batch. rewrite Hcom. simpl.
    rewrite find_snoc. simpl.
    destruct (find (fun b => N.eqb (b_batch_id b) other)
                   (inventory_batches (committed s))); [reflexivity|].
    destruct (N.eqb (next_batch_id (autoinc s)) other) eqn:E; [|reflexivity].
    apply N.eqb_eq in E. congruence.
  - intros env' user_id notes Hf.
    destruct (@place_order_succeeds env' user_id (next_batch_id (autoinc s)) notes s'
                _ Hf Hnew eq_refl) as [s2 H2].
    rewrite H2. simpl. rewrite Hauto. reflexivity.
Qed.

Lemma add_inventory_then_lookup_witness :
  lookup_batch 9 (committed sample_server) = None
  /\ option_map b_expiry_date (lookup_batch 9 (committed stocked_server))
     = Some (Some 3%Z)
  /\ fst (place_order (at_time 2100) 3 9 "" stocked_server) = OrderPlaced 1.
Proof.
  destruct (@add_inventory_then_lookup (at_time 2000) 10 (blood_type_map sample_tables)
              (Some "A+"%string) 450 150000 quality_B 3 sample_server stocked_server
              sample_server_keyed eq_refl)
    as [bt_id [_ [H1 [H2 [_ H4]]]]].
  split; [exact H1|]. split; [exact (f_equal (option_map b_expiry_date) H2)|].
  apply (H4 (at_time 2100) 3%N ""%string). intro i. reflexivity.
Defined.

Lemma keys_inj {A} (key : A -> N) next rows a b :
  keys_below key next rows -> In a rows -> In b rows -> key a = key b -> a = b.
Proof.
  intros Hk Ha Hb Hab.
  pose proof (@find_unique _ key next rows a Hk Ha) as Fa.
  pose proof (@find_unique _ key next rows b Hk Hb) as Fb.
  rewrite Hab in Fa. congruence.
Qed.

Lemma lookup_batch_found batch_id t b :
  lookup_batch batch_id t = Some b ->
  In b (inventory_batches t) /\ b_batch_id b = batch_id.
Proof.
  unfold lookup_batch. intro H. apply find_some in H. destruct H as [Hin Heq].
  apply N.eqb_eq in Heq. split; assumption.
Qed.

Lemma insert_by_In_rev {A} (leb : A -> A -> bool) (x y : A) (l : list A) :
  y = x \/ In y l -> In y (insert_by leb x l).
Proof.
  induction l as [|z l IH]; simpl.
  - intros [H|[]]. left. symmetry. exact H.
  - destruct (leb x z); simpl.
    + intros [H|[H|H]]; [left; symmetry; exact H|right; left; exact H|right; right; exact H].
    + intros [H|[H|H]]; [right; apply IH; left; exact H|left; exact H|
                         right; apply IH; right; exact H].
Qed.

Lemma order_by_In_rev {A} (leb : A -> A -> bool) (y : A) (l : list A) :
  In y l -> In y (order_by leb l).
Proof.
  induction l as [|x l IH]; simpl; [tauto|].
  intros [H|H]; apply insert_by_In_rev; [left; symmetry; exact H|right; apply IH; exact H].
Qed.

Lemma browse_query_complete sql_like collate_leb k now t b r bt :
  In b (inventory_batches t) -> In r (retailers t) -> In bt (blood_types t) ->
  b_retailer_id b = r_retailer_id r ->
  b_blood_type_id b = bt_id bt ->
  b_status b = available ->
  match b_expiry_date b with
  | None => True
  | Some d => (date_of now <= d)%Z
  end ->
  browse_filters sql_like k b r bt = true ->
  In (browse_row b r bt) (browse_query sql_like collate_leb k now t).
Proof.
  intros Hb Hr Hbt Hrid Hbtid Hs He Hf. unfold browse_query.
  apply order_by_In_rev. apply in_flat_map. exists b. split; [exact Hb|].
  unfold browse_batch. apply in_flat_map. exists r. split.
  { apply filter_In. split; [exact Hr|]. apply N.eqb_eq. exact Hrid. }
  apply in_flat_map. exists bt. split.
  { apply filter_In. split; [exact Hbt|]. apply N.eqb_eq. exact Hbtid. }
  assert (Hp : purchasable (date_of now) b = true).
  { unfold purchasable. rewrite Hs. simpl.
    destruct (b_expiry_date b); [apply Z.leb_le; exact He|reflexivity]. }
  rewrite Hp, Hf. simpl. left. reflexivity.
Qed.


(** X4. Placing an order does not look at the expiry date: an available
    batch whose expiry date has passed is in no browse listing evaluated
    now, whatever the filters, and still an order on its id is placed. *)
Theorem place_order_ignores_expiry :
  forall sql_like collate_leb k env user_id batch_id notes s b d,
    well_keyed s ->
    (forall i, fault env i = false) ->
    lookup_batch batch_id (committed s) = Some b ->
    b_status b = available ->
    b_expiry_date b = Some d ->
    (d < date_of (clock env 0))%Z ->
    (forall row,
        In row (browse_query sql_like collate_leb k (clock env 0) (committed s)) ->
        br_batch_id row <> batch_id)
    /\ fst (place_order env user_id batch_id notes s)
       = OrderPlaced (next_order_id (autoinc s)).
Proof.
  intros sql_like collate_leb k env user_id batch_id notes s b d Hs Hf Hb Hst He Hd.
  split.
  - intros row Hrow Hid.
    apply browse_query_purchasable in Hrow.
    destruct Hrow as [b' (Hin & Hid' & _ & _ & Hexp)].
    apply lookup_batch_found in Hb. destruct Hb as [Hbin Hbid].
    destruct Hs as (_ & _ & Hk & _).
    assert (b' = b) by (eapply keys_inj; eauto; congruence).
    subst b'. rewrite He in Hexp. lia.
  - destruct (@place_order_succeeds env user_id batch_id notes s b Hf Hb Hst)
      as [s' H]. rewrite H. reflexivity.
Qed.

Lemma stale_server_keyed : well_keyed stale_server.
Proof.
  unfold well_keyed, keyed, keys_below. simpl.
  repeat split; repeat constructor; simpl; try lia; intuition discriminate.
Qed.

Lemma place_order_ignores_expiry_witness :
  browse_query binary_like String.leb (browse_key "All" "" 0) 0 (committed stale_server)
  = []
  /\ fst (place_order (at_time 0) 3 7 "" stale_server) = OrderPlaced 1.
Proof.
  destruct (@place_order_ignores_expiry binary_like String.leb (browse_key "All" "" 0)
              (at_time 0) 3 7 "" stale_server _ (-1)%Z stale_server_keyed
              (fun _ => eq_refl) eq_refl eq_refl eq_refl eq_refl) as [_ H].
  split; [reflexivity|exact H].
Defined.

Lemma record_donation_batches collate_eqb env rid name phone bt vol price s s' :
  record_donation collate_eqb env rid name phone bt vol price s
  = (DonationRecorded, s') ->
  inventory_batches (committed s')
  = inventory_batches (committed s) ++
    [ {| b_batch_id := next_batch_id (autoinc s);
         b_donation_id := Some (next_donation_id (autoinc s));
         b_retailer_id := rid; b_blood_type_id := bt;
         b_quantity_ml := vol; b_unit_count := 1;
         b_quality := quality_A; b_status := available;
         b_price_per_unit := price;
         b_collected_at := Some (clock env 3);
         b_expiry_date := Some (date_of (clock env 3) + 35)%Z |} ]
  /\ retailers (committed s') = retailers (committed s)
  /\ blood_types (committed s') = blood_types (committed s).
Proof.
  run_donation.
  destruct (String.eqb name "" || String.eqb phone ""); [discriminate|].
  destruct (fault env 0); simpl; [discriminate|].
  destruct (find _ _); simpl;
    repeat match goal with
    | |- context [fault env ?i] => destruct (fault env i); simpl; [discriminate|]
    end;
    intro H; inversion H; subst; repeat split.
Qed.

(** X5. The shelf life of a donation: the batch made from a recorded
    donation is in the unfiltered browse listing evaluated at a time [now]
    exactly when the date of [now] is at most 35 days after the date the
    batch was collected, the retailer and the blood type being on file. *)
Theorem donated_batch_shelf_life :
  forall sql_like collate_leb collate_eqb env rid name phone bt vol price s s' r
         btrow now,
    well_keyed s ->
    record_donation collate_eqb env rid name phone bt vol price s
    = (DonationRecorded, s') ->
    In r (retailers (committed s)) -> r_retailer_id r = rid ->
    In btrow (blood_types (committed s)) -> bt_id btrow = bt ->
    ((exists row,
         In row (browse_query sql_like collate_leb (browse_key "All" "" 0) now
                   (committed s'))
         /\ br_batch_id row = next_batch_id (autoinc s))
     <-> (date_of now <= date_of (clock env 3) + 35)%Z).
Proof.
  intros sql_like collate_leb collate_eqb env rid name phone bt vol price s s' r
         btrow now Hs Hrec Hr Hrid Hbt Hbtid.
  pose proof (@record_donation_keeps_keys collate_eqb env rid name phone bt vol price
                s Hs) as Hs'.
  rewrite Hrec in Hs'. simpl in Hs'.
  destruct (record_donation_batches _ _ _ _ _ _ _ _ _ Hrec) as [Hb [Hrs Hbts]].
  set (new := {| b_batch_id := next_batch_id (autoinc s);
                 b_donation_id := Some (next_donation_id (autoinc s));
                 b_retailer_id := rid; b_blood_type_id := bt;
                 b_quantity_ml := vol; b_unit_count := 1;
                 b_quality := quality_A; b_status := available;
                 b_price_per_unit := price;
                 b_collected_at := Some (clock env 3);
                 b_expiry_date := Some (date_of (clock env 3) + 35)%Z |}) in *.
  assert (Hnew : In new (inventory_batches (committed s'))).
  { rewrite Hb. apply in_or_app. right. left. reflexivity. }
  split.
  - intros [row [Hrow Hid]].
    apply browse_query_purchasable in Hrow.
    destruct Hrow as [b' (Hin & Hid' & _ & _ & Hexp)].
    destruct Hs' as (_ & _ & Hk & _).
    assert (b' = new).
    { eapply keys_inj; eauto. rewrite Hid', Hid. reflexivity. }
    subst b'. exact Hexp.
  - intro Hdate.
    exists (browse_row new r btrow). split; [|reflexivity].
    apply browse_query_complete; try rewrite Hrs; try rewrite Hbts; auto.
Qed.

Lemma donated_batch_shelf_life_witness :
  (exists row,
      In row (browse_query binary_like String.leb (browse_key "All" "" 0)
                (35 * 86400 + 86399) (committed donated_server))
      /\ br_batch_id row = 9%N)
  /\ ~ (exists row,
           In row (browse_query binary_like String.leb (browse_key "All" "" 0)
                     (36 * 86400) (committed donated_server))
           /\ br_batch_id row = 9%N).
Proof.
  split.
  - apply (proj2 (@donated_batch_shelf_life binary_like String.leb ci_eqb (at_time 1000) 10
                    "Asha" "+911234567890" 1 450 200000 sample_server donated_server
                    {| r_retailer_id := 10; r_name := "City Blood Bank";
                       r_city := Some "Pune"%string |}
                    {| bt_id := 1; bt_code := "A+" |} (35 * 86400 + 86399)%Z
                    sample_server_keyed eq_refl (or_introl eq_refl) eq_refl
                    (or_introl eq_refl) eq_refl)).
    vm_compute. discriminate.
  - intro H.
    apply (proj1 (@donated_batch_shelf_life binary_like String.leb ci_eqb (at_time 1000) 10
                    "Asha" "+911234567890" 1 450 200000 sample_server donated_server
                    {| r_retailer_id := 10; r_name := "City Blood Bank";
                       r_city := Some "Pune"%string |}
                    {| bt_id := 1; bt_code := "A+" |} (36 * 86400)%Z
                    sample_server_keyed eq_refl (or_introl eq_refl) eq_refl
                    (or_introl eq_refl) eq_refl)) in H.
    vm_compute in H. apply H. reflexivity.
Defined.

(** ** Reporting queries *)

Section Grouping.

Variables (A K M : Type).
Variable key : A -> K.
Variable eqb : K -> K -> bool.
Hypothesis eqb_spec : forall a b, eqb a b = true <-> a = b.

Variable add : M -> M -> M.
Variable zero : M.
Hypothesis add_assoc : forall a b c, add a (add b c) = add (add a b) c.
Hypothesis add_zero_r : forall a, add a zero = a.
Hypothesis add_zero_l : forall a, add zero a = a.
Hypothesis add_comm : forall a b, add a b = add b a.

Lemma eqb_refl_spec a : eqb a a = true.
Proof. apply eqb_spec. reflexivity. Qed.

Lemma distinct_incl (l : list K) k : In k (distinct eqb l) -> In k l.
Proof.
  revert k. induction l as [|x l IH]; simpl; intros k H; [exact H|].
  destruct H as [H|H]; [left; exact H|].
  apply filter_In in H. right. apply IH. tauto.
Qed.

Lemma distinct_In (l : list K) k : In k l -> In k (distinct eqb l).
Proof.
  induction l as [|x l IH]; simpl; intro H; [exact H|].
  destruct (eqb k x) eqn:E.
  - left. symmetry. apply eqb_spec. exact E.
  - destruct H as [H|H].
    + subst. rewrite eqb_refl_spec in E. discriminate.
    + right. apply filter_In. split; [apply IH; exact H|]. rewrite E. reflexivity.
Qed.

Lemma distinct_NoDup (l : list K) : NoDup (distinct eqb l).
Proof.
  induction l as [|x l IH]; simpl; constructor.
  - intro H. apply filter_In in H. destruct H as [_ H].
    rewrite eqb_refl_spec in H. discriminate.
  - apply NoDup_filter. exact IH.
Qed.

Lemma total_split (g : K -> M) (p : K -> bool) (D : list K) :
  fold_right add zero (map g D)
  = add (fold_right add zero (map g (filter p D)))
        (fold_right add zero (map g (filter (fun k => negb (p k)) D))).
Proof.
  induction D as [|k D IH]; simpl.
  - symmetry. apply add_zero_r.
  - rewrite IH. destruct (p k); simpl.
    + rewrite add_assoc. reflexivity.
    + rewrite !add_assoc. f_equal. apply add_comm.
Qed.

Lemma filter_key_absent (l : list A) k :
  ~ In k (map key l) -> filter (fun x => eqb (key x) k) l = [].
Proof.
  induction l as [|x l IH]; simpl; intro H; [reflexivity|].
  destruct (eqb (key x) k) eqn:E.
  - apply eqb_spec in E. exfalso. apply H. left. exact E.
  - apply IH. intro Hin. apply H. right. exact Hin.
Qed.

Lemma filter_self (D : list K) k :
  NoDup D -> filter (fun y => eqb y k) D = if existsb (fun y => eqb y k) D then [k] else [].
Proof.
  induction D as [|y D IH]; simpl; intro Hnd; [reflexivity|].
  inversion Hnd as [|y' D' Hnotin Hnd']; subst.
  destruct (eqb y k) eqn:E; simpl.
  - apply eqb_spec in E. subst y.
    rewrite (IH Hnd').
    destruct (existsb (fun y => eqb y k) D) eqn:Ex; [|reflexivity].
    apply existsb_exists in Ex. destruct Ex as [z [Hz Ez]].
    apply eqb_spec in Ez. subst z. contradiction.
  - apply IH. exact Hnd'.
Qed.

(** Grouping loses nothing and counts nothing twice: the totals of the
    groups add up to the total of all rows. *)
Lemma group_totals (f : A -> M) (l : list A) :
  fold_right add zero
    (map (fun k => fold_right add zero
                     (map f (filter (fun x => eqb (key x) k) l)))
         (distinct eqb (map key l)))
  = fold_right add zero (map f l).
Proof.
  induction l as [|x l IH]; [reflexivity|].
  change (distinct eqb (map key (x :: l)))
    with (key x :: filter (fun y => negb (eqb y (key x))) (distinct eqb (map key l))).
  pose (S := fun k => fold_right add zero
                        (map f (filter (fun y => eqb (key y) k) l))).
  assert (Hrest : map (fun k => fold_right add zero
                                  (map f (filter (fun y => eqb (key y) k) (x :: l))))
                      (filter (fun y => negb (eqb y (key x)))
                              (distinct eqb (map key l)))
                  = map S (filter (fun y => negb (eqb y (key x)))
                                  (distinct eqb (map key l)))).
  { apply map_ext_in. intros k Hk. apply filter_In in Hk. destruct Hk as [_ Hk].
    cbn [filter].
    destruct (eqb (key x) k) eqn:E; [|reflexivity].
    apply eqb_spec in E. subst k. rewrite eqb_refl_spec in Hk. discriminate. }
  assert (Hself : fold_right add zero
                    (map S (filter (fun y => eqb y (key x)) (distinct eqb (map key l))))
                  = S (key x)).
  { rewrite (filter_self (key x) (distinct_NoDup (map key l))).
    destruct (existsb (fun y => eqb y (key x)) (distinct eqb (map key l))) eqn:Ex; simpl.
    - apply add_zero_r.
    - unfold S. rewrite filter_key_absent; [reflexivity|].
      intro Hin. apply distinct_In in Hin.
      assert (existsb (fun y => eqb y (key x)) (distinct eqb (map key l)) = true).
      { apply existsb_exists. exists (key x). split; [exact Hin|apply eqb_refl_spec]. }
      congruence. }
  cbn [map fold_right]. rewrite Hrest.
  cbn [filter]. rewrite eqb_refl_spec. cbn [map fold_right].
  fold (S (key x)).
  rewrite <- IH. fold S.
  rewrite (total_split S (fun y => eqb y (key x)) (distinct eqb (map key l))).
  rewrite Hself. rewrite add_assoc. reflexivity.
Qed.

End Grouping.

Lemma insert_by_Permutation {A} (leb : A -> A -> bool) x (l : list A) :
  Permutation (insert_by leb x l) (x :: l).
Proof.
  induction l as [|y l IH]; simpl; [apply Permutation_refl|].
  destruct (leb x y); [apply Permutation_refl|].
  eapply Permutation_trans; [apply perm_skip, IH|apply perm_swap].
Qed.

Lemma order_by_Permutation {A} (leb : A -> A -> bool) (l : list A) :
  Permutation (order_by leb l) l.
Proof.
  induction l as [|x l IH]; simpl; [constructor|].
  eapply Permutation_trans; [apply insert_by_Permutation|]. apply perm_skip, IH.
Qed.

Lemma insert_by_Sorted {A} (leb : A -> A -> bool) x (l : list A) :
  (forall a b, leb a b = false -> leb b a = true) ->
  Sorted (fun a b => leb a b = true) l ->
  Sorted (fun a b => leb a b = true) (insert_by leb x l).
Proof.
  intros Htot. induction l as [|y l IH]; simpl; intro Hs.
  - constructor; constructor.
  - destruct (leb x y) eqn:E.
    + constructor; [exact Hs|constructor; exact E].
    + inversion Hs as [|y' l' Hs' Hhd]; subst. constructor; [apply IH; exact Hs'|].
      destruct l as [|z l]; simpl.
      * constructor. apply Htot. exact E.
      * destruct (leb x z).
        -- constructor. apply Htot. exact E.
        -- inversion Hhd; subst. constructor. assumption.
Qed.

Lemma order_by_Sorted {A} (leb : A -> A -> bool) (l : list A) :
  (forall a b, leb a b = false -> leb b a = true) ->
  Sorted (fun a b => leb a b = true) (order_by leb l).
Proof.
  intro Htot. induction l as [|x l IH]; simpl; [constructor|].
  apply insert_by_Sorted; assumption.
Qed.


Lemma Sorted_weaken {A} (R R' : A -> A -> Prop) (l : list A) :
  (forall a b, R a b -> R' a b) -> Sorted R l -> Sorted R' l.
Proof.
  intros HR. induction 1 as [|x l Hs IH Hhd]; constructor; [exact IH|].
  destruct Hhd; constructor. apply HR. assumption.
Qed.

Lemma sum_Z_Permutation (l l' : list Z) : Permutation l l' -> sum_Z l = sum_Z l'.
Proof. induction 1; simpl; lia. Qed.

Lemma sum_N_Permutation (l l' : list N) : Permutation l l' -> sum_N l = sum_N l'.
Proof. induction 1; simpl; lia. Qed.

Lemma sum_N_ones {A} (l : list A) :
  fold_right N.add 0%N (map (fun _ => 1%N) l) = N.of_nat (List.length l).
Proof. induction l as [|x l IH]; [reflexivity|]. cbn [map fold_right List.length]. rewrite IH. lia. Qed.

Lemma filter_andb {A} (f g : A -> bool) (l : list A) :
  filter g (filter f l) = filter (fun x => f x && g x) l.
Proof.
  induction l as [|x l IH]; simpl; [reflexivity|].
  destruct (f x); simpl; [|exact IH].
  destruct (g x); [f_equal|]; exact IH.
Qed.

(** X6. The sales report of a retailer has exactly one row for each day on
    which the retailer has an order that is neither cancelled nor refunded,
    and no other row; the row of a day holds the sum of the amounts and the
    number of those orders placed on that day; the rows are in ascending
    order of the day.  So the totals of the report add up to the amounts of
    all those orders and its counts to their number: every such order is
    counted once, and no other order is. *)
Theorem sales_query_totals :
  forall rid now t,
    (forall o, sale_of rid o = true <->
               o_retailer_id o = Some rid /\ o_status o <> cancelled
               /\ o_status o <> refunded)
    /\ (forall row,
           In row (sales_query rid now t) <->
           ((exists o, In o (orders t) /\ sale_of rid o = true
                       /\ date_of (o_placed_at o) = sr_date row)
            /\ sr_total_sales row
               = sum_Z (map o_total_amount
                          (filter (fun o => sale_of rid o
                                            && Z.eqb (date_of (o_placed_at o))
                                                     (sr_date row))
                                  (orders t)))
            /\ sr_orders row
               = N.of_nat
                   (List.length
                      (filter (fun o => sale_of rid o
                                        && Z.eqb (date_of (o_placed_at o))
                                                 (sr_date row))
                              (orders t)))))
    /\ sum_Z (map sr_total_sales (sales_query rid now t))
       = sum_Z (map o_total_amount (filter (sale_of rid) (orders t)))
    /\ sum_N (map sr_orders (sales_query rid now t))
       = N.of_nat (List.length (filter (sale_of rid) (orders t)))
    /\ Sorted (fun x y => (sr_date x <= sr_date y)%Z) (sales_query rid now t)
    /\ NoDup (map sr_date (sales_query rid now t)).
Proof.
  intros rid now t. split; [|split; [|split; [|split; [|split]]]].
  - intro o. unfold sale_of. split.
    + intro H. apply andb_true_iff in H. destruct H as [Hr Hs].
      destruct (o_retailer_id o) as [r|]; [|discriminate].
      apply N.eqb_eq in Hr. subst r.
      split; [reflexivity|].
      destruct (o_status o); simpl in Hs; try discriminate; split; discriminate.
    + intros [Hr [Hc Hf]]. rewrite Hr, N.eqb_refl. simpl.
      destruct (o_status o); simpl; try reflexivity; congruence.
  - intro row. unfold sales_query. split.
    + intro H. apply order_by_In in H. apply in_map_iff in H.
      destruct H as [d [Hrow Hd]]. apply distinct_incl in Hd.
      apply in_map_iff in Hd. destruct Hd as [o [Hdate Ho]].
      apply filter_In in Ho. destruct Ho as [Ho Hsale].
      subst row. simpl. rewrite !filter_andb.
      split; [|split; reflexivity].
      exists o. repeat split; assumption.
    + intros [[o [Ho [Hsale Hdate]]] [Htot Hcnt]].
      apply order_by_In_rev. apply in_map_iff. exists (sr_date row). split.
      * rewrite !filter_andb. destruct row as [d tot cnt]. simpl in *.
        subst tot cnt. reflexivity.
      * apply (@distinct_In Z Z.eqb Z.eqb_eq). rewrite <- Hdate.
        apply (in_map (fun o => date_of (o_placed_at o))).
        apply filter_In. split; assumption.
  - unfold sales_query.
    rewrite (sum_Z_Permutation
               (Permutation_map sr_total_sales (order_by_Permutation _ _))).
    rewrite map_map. simpl.
    apply (@group_totals Order Z Z (fun o => date_of (o_placed_at o)) Z.eqb Z.eqb_eq
             Z.add 0%Z Z.add_assoc Z.add_0_r Z.add_comm o_total_amount).
  - unfold sales_query.
    rewrite (sum_N_Permutation
               (Permutation_map sr_orders (order_by_Permutation _ _))).
    rewrite map_map. simpl.
    rewrite <- sum_N_ones.
    rewrite <- (@group_totals Order Z N (fun o => date_of (o_placed_at o)) Z.eqb
                  Z.eqb_eq N.add 0%N N.add_assoc N.add_0_r N.add_comm
                  (fun _ => 1%N) (filter (sale_of rid) (orders t))).
    unfold sum_N. f_equal. apply map_ext. intro d. symmetry. apply sum_N_ones.
  - unfold sales_query.
    eapply Sorted_weaken; [|apply order_by_Sorted].
    + intros a b H. apply Z.leb_le. exact H.
    + intros a b H. apply Z.leb_gt in H. apply Z.leb_le. lia.
  - unfold sales_query.
    eapply Permutation_NoDup.
    + apply Permutation_sym, Permutation_map, order_by_Permutation.
    + rewrite map_map. simpl. rewrite map_id.
      apply (@distinct_NoDup Z Z.eqb Z.eqb_eq).
Qed.



















Lemma left_join_payments_In ps o row :
  In row (left_join_payments ps o) ->
  or_order row = o
  /\ match or_payment_id row with
     | None => or_payment_status row = None
               /\ forall p, In p ps -> p_order_id p <> o_order_id o
     | Some pid => exists p, In p ps /\ p_order_id p = o_order_id o
                             /\ p_payment_id p = pid
                             /\ or_payment_status row = Some (p_status p)
     end.
Proof.
  unfold left_join_payments.
  destruct (filter (fun p => N.eqb (o_order_id o) (p_order_id p)) ps) as [|p0 rest] eqn:E.
  - intros [H|[]]. subst row. simpl. split; [reflexivity|]. split; [reflexivity|].
    intros p Hp Heq.
    assert (Hin : In p (filter (fun p => N.eqb (o_order_id o) (p_order_id p)) ps)).
    { apply filter_In. split; [exact Hp|]. apply N.eqb_eq. symmetry. exact Heq. }
    rewrite E in Hin. destruct Hin.
  - intro H. apply in_map_iff in H. destruct H as [p [Hrow Hp]].
    rewrite <- E in Hp. apply filter_In in Hp. destruct Hp as [Hp Heq].
    apply N.eqb_eq in Heq. subst row. simpl. split; [reflexivity|].
    exists p. repeat split; auto.
Qed.

Lemma left_join_payments_nonempty ps o :
  exists row, In row (left_join_payments ps o) /\ or_order row = o.
Proof.
  unfold left_join_payments.
  destruct (filter (fun p => N.eqb (o_order_id o) (p_order_id p)) ps) as [|p0 rest].
  - eexists. split; [left; reflexivity|reflexivity].
  - eexists. split; [left; reflexivity|reflexivity].
Qed.

(** X9. The order listing of a customer shows the newest order first; it
    shows every order of the customer and no order of anybody else; a row
    with a payment shows a payment of that order with its status, and a row
    without one belongs to an order that has no payment. *)
Theorem orders_query_lists :
  forall customer_id now t,
    Sorted (fun x y => (o_placed_at (or_order y) <= o_placed_at (or_order x))%Z)
           (orders_query customer_id now t)
    /\ (forall o,
           (exists row, In row (orders_query customer_id now t) /\ or_order row = o)
           <-> (In o (orders t) /\ o_customer_id o = customer_id))
    /\ (forall row,
           In row (orders_query customer_id now t) ->
           match or_payment_id row with
           | None => or_payment_status row = None
                     /\ forall p, In p (payments t) ->
                                  p_order_id p <> o_order_id (or_order row)
           | Some pid => exists p, In p (payments t)
                                   /\ p_order_id p = o_order_id (or_order row)
                                   /\ p_payment_id p = pid
                                   /\ or_payment_status row = Some (p_status p)
           end).
Proof.
  intros customer_id now t. unfold orders_query. split; [|split].
  - eapply Sorted_weaken; [|apply order_by_Sorted].
    + intros a b H. apply Z.leb_le. exact H.
    + intros a b H. apply Z.leb_gt in H. apply Z.leb_le. lia.
  - intro o. split.
    + intros [row [Hrow Ho]]. apply order_by_In in Hrow.
      apply in_flat_map in Hrow. destruct Hrow as [o' [Ho' Hrow]].
      apply left_join_payments_In in Hrow. destruct Hrow as [Heq _].
      apply filter_In in Ho'. destruct Ho' as [Hin Hc]. apply N.eqb_eq in Hc.
      split; congruence.
    + intros [Hin Hc].
      destruct (left_join_payments_nonempty (payments t) o) as [row [Hrow Ho]].
      exists row. split; [|exact Ho].
      apply order_by_In_rev. apply in_flat_map. exists o. split; [|exact Hrow].
      apply filter_In. split; [exact Hin|]. apply N.eqb_eq. exact Hc.
  - intros row Hrow. apply order_by_In in Hrow.
    apply in_flat_map in Hrow. destruct Hrow as [o [_ Hrow]].
    apply left_join_payments_In in Hrow. destruct Hrow as [Heq H]. subst o. exact H.
Qed.

(** ** The cache of [fetch_df] *)

Lemma cache_get_put {K R} (eqb : K -> K -> bool) k now (r : R) c :
  eqb k k = true -> cache_get eqb k (cache_put eqb k now r c) = Some (now, r).
Proof. intro H. unfold cache_put. simpl. rewrite H. reflexivity. Qed.

(** X10. Once [fetch_df] has read a result from the database, it returns
    that same result for the same query and parameters for the next 30
    seconds, whatever has been committed since and even when the database
    cannot be reached; from 30 seconds on it asks the database again and
    returns what the tables hold then. *)
Theorem fetch_df_served_from_cache :
  forall (K R : Type) (eqb : K -> K -> bool) (query : K -> Z -> Tables -> R)
         env0 i env1 j k c s0 s1 r c1,
    eqb k k = true ->
    match cache_get eqb k c with
    | Some (stamp, _) => (stamp + ttl <= clock env0 i)%Z
    | None => True
    end ->
    fetch_df eqb query env0 i k c s0 = (inr r, c1) ->
    r = query k (clock env0 i) (committed s0)
    /\ ((clock env1 j < clock env0 i + ttl)%Z ->
        fetch_df eqb query env1 j k c1 s1 = (inr r, c1))
    /\ ((clock env0 i + ttl <= clock env1 j)%Z -> fault env1 j = false ->
        fst (fetch_df eqb query env1 j k c1 s1)
        = inr (query k (clock env1 j) (committed s1))).
Proof.
  intros K R eqb query env0 i env1 j k c s0 s1 r c1 Hrefl Hold Hfetch.
  assert (Hmiss : fault env0 i = false
                  /\ r = query k (clock env0 i) (committed s0)
                  /\ c1 = cache_put eqb k (clock env0 i) r c).
  { unfold fetch_df in Hfetch.
    destruct (cache_get eqb k c) as [[stamp r0]|].
    - destruct (clock env0 i <? stamp + ttl)%Z eqn:E.
      + apply Z.ltb_lt in E. lia.
      + destruct (fault env0 i); [discriminate|].
        inversion Hfetch; subst. repeat split.
    - destruct (fault env0 i); [discriminate|].
      inversion Hfetch; subst. repeat split. }
  destruct Hmiss as [_ [Hr Hc1]]. split; [exact Hr|].
  assert (Hget : cache_get eqb k c1 = Some (clock env0 i, r)).
  { rewrite Hc1. apply cache_get_put. exact Hrefl. }
  split.
  - intro Hlt. unfold fetch_df. rewrite Hget.
    apply Z.ltb_lt in Hlt. rewrite Hlt. reflexivity.
  - intros Hge Hf. unfold fetch_df. rewrite Hget.
    destruct (clock env1 j <? clock env0 i + ttl)%Z eqn:E.
    + apply Z.ltb_lt in E. lia.
    + rewrite Hf. reflexivity.
Qed.

Lemma fetch_df_served_from_cache_witness :
  fetch_df N.eqb orders_query (fault_at 0 (fun _ => 129%Z)) 0 3%N
    (snd (fetch_df N.eqb orders_query (at_time 100) 0 3%N [] sample_server))
    placed_server
  = (inr [], snd (fetch_df N.eqb orders_query (at_time 100) 0 3%N [] sample_server))
  /\ fst (fetch_df N.eqb orders_query (at_time 130) 0 3%N
            (snd (fetch_df N.eqb orders_query (at_time 100) 0 3%N [] sample_server))
            placed_server)
     = inr (orders_query 3 130 (committed placed_server)).
Proof.
  split.
  - apply (proj1 (proj2 (@fetch_df_served_from_cache N (list OrderRow) N.eqb orders_query
                           (at_time 100) 0%nat (fault_at 0 (fun _ => 129%Z)) 0%nat 3%N
                           [] sample_server placed_server [] _ eq_refl I eq_refl))).
    reflexivity.
  - apply (proj2 (proj2 (@fetch_df_served_from_cache N (list OrderRow) N.eqb orders_query
                           (at_time 100) 0%nat (at_time 130) 0%nat 3%N
                           [] sample_server placed_server [] _ eq_refl I eq_refl))).
    + vm_compute. discriminate.
    + reflexivity.
Defined.

(** ** Accounts *)

Section AccountProofs.

Variable validate_email : string -> bool.
Variable hashpw : string -> string.
Variable checkpw : string -> string -> option bool.

Lemma signup_transaction_ok env name email phone hashed role a s uid a' s' :
  signup_transaction env name email phone hashed role a s = (inr uid, a', s') ->
  uid = next_user_id a
  /\ email_taken email (users a) = false
  /\ phone_taken phone (users a) = false
  /\ users a' = users a ++ [new_user uid name email phone hashed role]
  /\ match role with
     | role_retailer =>
         customers a' = customers a
         /\ committed s'
            = with_retailers
                (retailers (committed s) ++
                 [ {| r_retailer_id := uid; r_name := name; r_city := None |} ])
                (committed s)
         /\ autoinc s' = autoinc s
     | _ =>
         customers a' = customers a ++
                        [ {| c_customer_id := uid; c_hospital_name := Some name;
                             c_contact_person := Some name |} ]
         /\ s' = s
     end.
Proof.
  unfold signup_transaction.
  destruct (fault env 1); simpl; [discriminate|].
  destruct (email_taken email (users a)); simpl; [discriminate|].
  destruct (phone_taken phone (users a)); simpl; [discriminate|].
  destruct (fault env 2); simpl; [discriminate|].
  destruct role; simpl;
    match goal with
    | |- context [existsb ?f ?l] => destruct (existsb f l); simpl; [discriminate|]
    end;
    (destruct (fault env 3); simpl; [discriminate|]);
    intro H; inversion H; subst; simpl; repeat split.
Qed.

Lemma signup_transaction_failed env name email phone hashed role a s e a' s' :
  signup_transaction env name email phone hashed role a s = (inl e, a', s') ->
  users a' = users a /\ customers a' = customers a /\ s' = s.
Proof.
  unfold signup_transaction.
  destruct (fault env 1 || email_taken email (users a) || phone_taken phone (users a));
    [intro H; inversion H; subst; repeat split|].
  match goal with
  | |- context [fault env 2 || ?k] => destruct (fault env 2 || k)
  end; [intro H; inversion H; subst; repeat split|].
  destruct (fault env 3); [intro H; inversion H; subst; repeat split|].
  destruct role; discriminate.
Qed.

Lemma phone_ok_format p :
  phone_ok p = true ->
  exists d, p = String "+" d /\ all_digits d = true /\ (10 <= String.length d)%nat.
Proof.
  unfold phone_ok. destruct p as [|ch d]; [discriminate|].
  destruct (Ascii.eqb ch "+") eqn:E.
  - apply Ascii.eqb_eq in E. subst ch. intro H.
    apply andb_true_iff in H. destruct H as [Hd Hl].
    exists d. split; [reflexivity|]. split.
    + unfold isdigit in Hd. destruct d; [discriminate|exact Hd].
    + apply Nat.leb_le in Hl. simpl in Hl. lia.
  - intro H. exfalso.
    destruct ch as [[] [] [] [] [] [] [] []]; try discriminate H; discriminate E.
Qed.

Lemma signup_created_inv :
  forall env role name_in email_in phone_in password_in confirm_in x uid x',
    signup validate_email hashpw env role name_in email_in phone_in password_in
           confirm_in x = (AccountCreated uid, x') ->
    strip name_in <> ""%string
    /\ strip email_in <> ""%string
    /\ strip password_in <> ""%string
    /\ strip password_in = strip confirm_in
    /\ (exists d, strip phone_in = String "+" d /\ all_digits d = true
                  /\ (10 <= String.length d)%nat)
    /\ validate_email (strip email_in) = true
    /\ email_taken (strip email_in) (users (accounts x)) = false
    /\ phone_taken (strip phone_in) (users (accounts x)) = false
    /\ uid = next_user_id (accounts x)
    /\ users (accounts x')
       = users (accounts x) ++
         [ {| u_user_id := uid; u_full_name := Some (strip name_in);
              u_email := Some (strip email_in); u_phone := Some (strip phone_in);
              u_password_hash := Some (hashpw (strip password_in));
              u_role := role; u_is_active := true |} ]
    /\ match role with
       | role_retailer =>
           customers (accounts x') = customers (accounts x)
           /\ retailers (committed (server (world x')))
              = retailers (committed (server (world x))) ++
                [ {| r_retailer_id := uid; r_name := strip name_in; r_city := None |} ]
       | _ =>
           customers (accounts x')
           = customers (accounts x) ++
             [ {| c_customer_id := uid; c_hospital_name := Some (strip name_in);
                  c_contact_person := Some (strip name_in) |} ]
           /\ server (world x') = server (world x)
       end
    /\ session_user x' = session_user x.
Proof.
  intros env role name_in email_in phone_in password_in confirm_in x uid x'.
  unfold signup.
  destruct (String.eqb (strip name_in) "") eqn:En; simpl; [discriminate|].
  destruct (String.eqb (strip email_in) "") eqn:Ee; simpl; [discriminate|].
  destruct (String.eqb (strip phone_in) "") eqn:Ep; simpl; [discriminate|].
  destruct (String.eqb (strip password_in) "") eqn:Epw; simpl; [discriminate|].
  destruct (String.eqb (strip confirm_in) "") eqn:Ec; simpl; [discriminate|].
  destruct (String.eqb (strip password_in) (strip confirm_in)) eqn:Esame; simpl;
    [|discriminate].
  destruct (phone_ok (strip phone_in)) eqn:Eph; simpl; [|discriminate].
  destruct (validate_email (strip email_in)) eqn:Ev; simpl; [|discriminate].
  destruct (fetch_df pair_eqb (existing_query (accounts x)) env 0
              (strip email_in, strip phone_in) (existing_cache x) (server (world x)))
    as [[e|[|u rest]] c]; try discriminate.
  destruct (signup_transaction env (strip name_in) (strip email_in) (strip phone_in)
              (hash_password hashpw (strip password_in)) role (accounts x)
              (server (world x))) as [[[e|uid'] a'] s'] eqn:Htx; [discriminate|].
  intro H. inversion H; subst; clear H.
  apply signup_transaction_ok in Htx.
  destruct Htx as (Huid & Hemail & Hphone & Husers & Hprofile).
  apply String.eqb_neq in En, Ee, Epw. apply String.eqb_eq in Esame.
  split; [exact En|]. split; [exact Ee|]. split; [exact Epw|]. split; [exact Esame|].
  split; [apply phone_ok_format; exact Eph|].
  split; [reflexivity|]. split; [exact Hemail|]. split; [exact Hphone|].
  split; [exact Huid|]. split; [exact Husers|]. split; [|reflexivity].
  destruct role; simpl.
  - destruct Hprofile as [Hc Hs]. rewrite Hs. split; [exact Hc|].
    destruct (world x); reflexivity.
  - destruct Hprofile as (Hc & Hcom & Hauto). split; [exact Hc|].
    rewrite Hcom. reflexivity.
  - destruct Hprofile as [Hc Hs]. rewrite Hs. split; [exact Hc|].
    destruct (world x); reflexivity.
Qed.


Lemma signup_refused_inv :
  forall env role name_in email_in phone_in password_in confirm_in x,
    (forall uid,
        fst (signup validate_email hashpw env role name_in email_in phone_in
               password_in confirm_in x) <> AccountCreated uid) ->
    users (accounts (snd (signup validate_email hashpw env role name_in email_in
                            phone_in password_in confirm_in x)))
    = users (accounts x)
    /\ customers (accounts (snd (signup validate_email hashpw env role name_in
                                   email_in phone_in password_in confirm_in x)))
       = customers (accounts x)
    /\ world (snd (signup validate_email hashpw env role name_in email_in phone_in
                     password_in confirm_in x))
       = world x
    /\ session_user (snd (signup validate_email hashpw env role name_in email_in
                            phone_in password_in confirm_in x))
       = session_user x.
Proof.
  intros env role name_in email_in phone_in password_in confirm_in x.
  unfold signup.
  destruct (String.eqb (strip name_in) "" || String.eqb (strip email_in) ""
            || String.eqb (strip phone_in) "" || String.eqb (strip password_in) ""
            || String.eqb (strip confirm_in) ""); [repeat split|].
  destruct (negb (String.eqb (strip password_in) (strip confirm_in))); [repeat split|].
  destruct (negb (phone_ok (strip phone_in))); [repeat split|].
  destruct (negb (validate_email (strip email_in))); [repeat split|].
  destruct (fetch_df pair_eqb (existing_query (accounts x)) env 0
              (strip email_in, strip phone_in) (existing_cache x) (server (world x)))
    as [[e|[|u rest]] c]; try (repeat split; fail).
  destruct (signup_transaction env (strip name_in) (strip email_in) (strip phone_in)
              (hash_password hashpw (strip password_in)) role (accounts x)
              (server (world x))) as [[[e|uid'] a'] s'] eqn:Htx; simpl.
  - intros _. apply signup_transaction_failed in Htx.
    destruct Htx as (Hu & Hc & Hs). subst s'.
    split; [exact Hu|]. split; [exact Hc|]. split; [|reflexivity].
    destruct (world x); reflexivity.
  - intro H. exfalso. apply (H uid'). reflexivity.
Qed.

(** X12. Signup is all or nothing: when no account is created, because the
    form is refused, the email or phone is taken, or the database fails at
    the user row, the profile row or the commit, there is no new user row, no
    new profile row, and the marketplace tables and the session are as they
    were. *)
Theorem signup_all_or_nothing :
  forall env role name_in email_in phone_in password_in confirm_in x,
    (forall uid,
        fst (signup validate_email hashpw env role name_in email_in phone_in
               password_in confirm_in x) <> AccountCreated uid) ->
    users (accounts (snd (signup validate_email hashpw env role name_in email_in
                            phone_in password_in confirm_in x)))
    = users (accounts x)
    /\ customers (accounts (snd (signup validate_email hashpw env role name_in
                                   email_in phone_in password_in confirm_in x)))
       = customers (accounts x)
    /\ world (snd (signup validate_email hashpw env role name_in email_in phone_in
                     password_in confirm_in x))
       = world x
    /\ session_user (snd (signup validate_email hashpw env role name_in email_in
                            phone_in password_in confirm_in x))
       = session_user x.
Proof. exact signup_refused_inv. Qed.

Lemma emails_of_snoc us u :
  emails_of (us ++ [u])
  = emails_of us ++ match u_email u with Some e => [e] | None => [] end.
Proof. unfold emails_of. rewrite flat_map_app. simpl. rewrite app_nil_r. reflexivity. Qed.

Lemma phones_of_snoc us u :
  phones_of (us ++ [u])
  = phones_of us ++ match u_phone u with Some e => [e] | None => [] end.
Proof. unfold phones_of. rewrite flat_map_app. simpl. rewrite app_nil_r. reflexivity. Qed.

Lemma email_free email us : email_taken email us = false -> ~ In email (emails_of us).
Proof.
  unfold email_taken, emails_of. intros H Hin.
  apply in_flat_map in Hin. destruct Hin as [u [Hu Hin]].
  destruct (u_email u) as [e|] eqn:E; [|destruct Hin].
  destruct Hin as [Hin|[]]. subst e.
  assert (Hex : existsb (fun u => option_string_eqb (u_email u) (Some email)) us = true).
  { apply existsb_exists. exists u. split; [exact Hu|]. rewrite E. simpl.
    apply String.eqb_refl. }
  congruence.
Qed.

Lemma phone_free phone us : phone_taken phone us = false -> ~ In phone (phones_of us).
Proof.
  unfold phone_taken, phones_of. intros H Hin.
  apply in_flat_map in Hin. destruct Hin as [u [Hu Hin]].
  destruct (u_phone u) as [e|] eqn:E; [|destruct Hin].
  destruct Hin as [Hin|[]]. subst e.
  assert (Hex : existsb (fun u => option_string_eqb (u_phone u) (Some phone)) us = true).
  { apply existsb_exists. exists u. split; [exact Hu|]. rewrite E. simpl.
    apply String.eqb_refl. }
  congruence.
Qed.

Lemma add_user_unique us uid name email phone hashed role :
  NoDup (emails_of us) /\ NoDup (phones_of us) ->
  email_taken email us = false -> phone_taken phone us = false ->
  NoDup (emails_of (us ++ [new_user uid name email phone hashed role]))
  /\ NoDup (phones_of (us ++ [new_user uid name email phone hashed role])).
Proof.
  intros [He Hp] Hemail Hphone. rewrite emails_of_snoc, phones_of_snoc. simpl. split.
  - apply NoDup_snoc; [exact He|apply email_free; exact Hemail].
  - apply NoDup_snoc; [exact Hp|apply phone_free; exact Hphone].
Qed.

(** X13. No two users ever share an email or a phone: signup and the
    seeding of the administrator keep that, also when the look-up that
    precedes the insert was answered from a stale cache, because the insert
    itself is refused. *)
Theorem accounts_stay_unique :
  forall env x,
    unique_contacts (accounts x) ->
    (forall role name_in email_in phone_in password_in confirm_in,
        unique_contacts
          (accounts (snd (signup validate_email hashpw env role name_in email_in
                            phone_in password_in confirm_in x))))
    /\ unique_contacts (accounts (snd (seed_admin_user hashpw env x)))
    /\ (forall email_in password,
           accounts (snd (login checkpw env email_in password x)) = accounts x).
Proof.
  intros env x Hu. split; [|split].
  - intros role name_in email_in phone_in password_in confirm_in.
    destruct (signup validate_email hashpw env role name_in email_in phone_in
                password_in confirm_in x) as [out x'] eqn:Hs.
    destruct out;
      try (pose proof (@signup_refused_inv env role name_in email_in phone_in
                         password_in confirm_in x) as Hn;
           rewrite Hs in Hn; simpl in Hn;
           destruct Hn as [Husers _]; [intros uid'; discriminate|];
           unfold unique_contacts; simpl; rewrite Husers; exact Hu).
    apply signup_created_inv in Hs.
    destruct Hs as (_ & _ & _ & _ & _ & _ & Hemail & Hphone & _ & Husers & _).
    unfold unique_contacts. simpl. rewrite Husers.
    apply (@add_user_unique (users (accounts x)) uid (strip name_in) (strip email_in)
             (strip phone_in) (hashpw (strip password_in)) role Hu Hemail Hphone).
  - unfold seed_admin_user.
    destruct (fetch_df String.eqb (user_by_email_query (accounts x)) env 0 ADMIN_EMAIL
                (seed_cache x) (server (world x))) as [[e|[|u rest]] c];
      try exact Hu.
    destruct (fault env 1); simpl; [exact Hu|].
    destruct (email_taken ADMIN_EMAIL (users (accounts x))) eqn:He; simpl; [exact Hu|].
    destruct (phone_taken "+0000000000" (users (accounts x))) eqn:Hp; simpl; [exact Hu|].
    unfold unique_contacts. simpl.
    apply (@add_user_unique (users (accounts x)) (next_user_id (accounts x))
             "Platform Admin" ADMIN_EMAIL "+0000000000" (hash_password hashpw ADMIN_PASS)
             role_admin Hu He Hp).
  - intros email_in password. unfold login.
    destruct (String.eqb (strip email_in) "" || String.eqb password ""); [reflexivity|].
    destruct (fetch_df String.eqb (active_user_query (accounts x)) env 0
                (strip email_in) (login_cache x) (server (world x)))
      as [[e|[|row rest]] c]; try reflexivity.
    destruct (verify_password checkpw password (u_password_hash row)); reflexivity.
Qed.






End AccountProofs.


Lemma signup_all_or_nothing_witness :
  fst (signup toy_validate_email toy_hashpw (fault_at 2 (fun _ => 10%Z)) role_retailer
         "City Blood Bank" "bank@city.example" "+911234567891" "pw" "pw" signed_up_site)
  = SignupDatabaseError (PersistenceError 2)
  /\ users (accounts
              (snd (signup toy_validate_email toy_hashpw (fault_at 2 (fun _ => 10%Z))
                      role_retailer "City Blood Bank" "bank@city.example"
                      "+911234567891" "pw" "pw" signed_up_site)))
     = users (accounts signed_up_site).
Proof.
  split; [reflexivity|].
  apply (@signup_all_or_nothing toy_validate_email toy_hashpw
           (fault_at 2 (fun _ => 10%Z)) role_retailer "City Blood Bank"
           "bank@city.example" "+911234567891" "pw" "pw" signed_up_site).
  intros uid H. vm_compute in H. discriminate H.
Defined.

Lemma accounts_stay_unique_witness :
  unique_contacts (accounts signed_up_site)
  /\ unique_contacts
       (accounts (snd (seed_admin_user toy_hashpw (at_time 20) signed_up_site))).
Proof.
  assert (H1 : unique_contacts (accounts signed_up_site)).
  { exact (proj1 (@accounts_stay_unique toy_validate_email toy_hashpw toy_checkpw
                    (at_time 10) empty_site
                    (conj (NoDup_nil string) (NoDup_nil string)))
                 role_customer " City Hospital "%string "desk@city.example"%string
                 "+911234567890"%string "s3cret "%string "s3cret"%string). }
  split; [exact H1|].
  exact (proj1 (proj2 (@accounts_stay_unique toy_validate_email toy_hashpw toy_checkpw
                         (at_time 20) signed_up_site H1))).
Defined.



(** ** The life of an order *)

Lemma simulate_pay_now_runs env row s :
  fault env 1 = false -> fault env 2 = false -> fault env 3 = false ->
  simulate_pay_now env row s
  = (inr tt,
     {| committed :=
          with_payments
            (update_where (fun p => match or_payment_id row with
                                    | Some pid => N.eqb (p_payment_id p) pid
                                    | None => false
                                    end)
                          (set_p_paid completed upi) (payments (committed s)))
            (with_orders
               (update_where (fun o => N.eqb (o_order_id o) (o_order_id (or_order row)))
                             (set_o_status confirmed (clock env 1))
                             (orders (committed s)))
               (committed s));
        autoinc := autoinc s |}).
Proof.
  intros H1 H2 H3.
  unfold simulate_pay_now, bind, cur_execute, conn_commit. simpl.
  rewrite H1. simpl. rewrite H2. simpl. rewrite H3. reflexivity.
Qed.

Lemma pay_buttons_pays env oid rows :
  forall seen s row,
    NoDup (map (fun r => o_order_id (or_order r)) (filter shows_pay_button rows)) ->
    (forall r, In r rows -> shows_pay_button r = true ->
               ~ In (o_order_id (or_order r)) seen) ->
    In row rows -> shows_pay_button row = true -> o_order_id (or_order row) = oid ->
    fault env 1 = false -> fault env 2 = false -> fault env 3 = false ->
    pay_buttons env (Some oid) seen rows s
    = ([PaymentSuccessful oid], snd (simulate_pay_now env row s)).
Proof.
  induction rows as [|r rest IH]; intros seen s row Hnd Hseen Hin Hshow Hid H1 H2 H3;
    [destruct Hin|].
  simpl. simpl in Hnd.
  destruct (shows_pay_button r) eqn:Hr.
  - assert (Hnot : existsb (N.eqb (o_order_id (or_order r))) seen = false).
    { destruct (existsb (N.eqb (o_order_id (or_order r))) seen) eqn:E; [|reflexivity].
      apply existsb_exists in E. destruct E as [k [Hk Hek]].
      apply N.eqb_eq in Hek. subst k.
      exfalso. apply (Hseen r (or_introl eq_refl) Hr). exact Hk. }
    rewrite Hnot. simpl in Hnd. inversion Hnd as [|k ks Hhead Hnd']; subst.
    destruct (N.eqb (o_order_id (or_order row)) (o_order_id (or_order r))) eqn:E.
    + apply N.eqb_eq in E.
      assert (row = r).
      { destruct Hin as [Hin|Hin]; [symmetry; exact Hin|].
        exfalso. apply Hhead. rewrite <- E.
        apply (in_map (fun r => o_order_id (or_order r))).
        apply filter_In. split; assumption. }
      subst r. rewrite (@simulate_pay_now_runs env row s H1 H2 H3). reflexivity.
    + destruct Hin as [Hin|Hin].
      { subst r. rewrite N.eqb_refl in E. discriminate. }
      apply IH; try assumption; try reflexivity.
      intros r' Hr' Hs' [Heq|Hin'].
      * apply Hhead. rewrite Heq.
        apply (in_map (fun r => o_order_id (or_order r))).
        apply filter_In. split; assumption.
      * apply (Hseen r' (or_intror Hr') Hs'). exact Hin'.
  - destruct Hin as [Hin|Hin]; [subst r; congruence|].
    apply IH; try assumption; try reflexivity.
    intros r' Hr' Hs'. apply Hseen; [right; exact Hr'|exact Hs'].
Qed.

(** X17. Pressing an offered Pay Now button pays that order: when the
    listing shows the button for an order, no order is listed twice with a
    button, and the database does not fail, the run reports the payment;
    afterwards every order row with that id has status [confirmed] and the
    time of the update as its modification time, the payment row of the
    listed payment id has status [completed] and method [upi], these rows
    keep their other fields, and every other order and payment row and the
    inventory and order items are as they were. *)
Theorem pay_now_pays :
  forall env user_id w rows c row,
    fetch_df N.eqb orders_query env 0 user_id (orders_cache w) (server w)
    = (inr rows, c) ->
    NoDup (map (fun r => o_order_id (or_order r)) (filter shows_pay_button rows)) ->
    In row rows -> shows_pay_button row = true ->
    fault env 1 = false -> fault env 2 = false -> fault env 3 = false ->
    fst (my_orders_tab env user_id (Some (o_order_id (or_order row))) w)
    = inr [PaymentSuccessful (o_order_id (or_order row))]
    /\ orders (committed (server (snd (my_orders_tab env user_id
                                         (Some (o_order_id (or_order row))) w))))
       = map (fun o =>
                if N.eqb (o_order_id o) (o_order_id (or_order row))
                then {| o_order_id := o_order_id o;
                        o_customer_id := o_customer_id o;
                        o_retailer_id := o_retailer_id o;
                        o_total_amount := o_total_amount o;
                        o_status := confirmed; o_placed_at := o_placed_at o;
                        o_modified_at := Some (clock env 1);
                        o_notes := o_notes o |}
                else o)
             (orders (committed (server w)))
    /\ payments (committed (server (snd (my_orders_tab env user_id
                                           (Some (o_order_id (or_order row))) w))))
       = map (fun p =>
                if match or_payment_id row with
                   | Some pid => N.eqb (p_payment_id p) pid
                   | None => false
                   end
                then {| p_payment_id := p_payment_id p; p_order_id := p_order_id p;
                        p_amount := p_amount p; p_method := upi;
                        p_status := completed |}
                else p)
             (payments (committed (server w)))
    /\ inventory_batches (committed (server (snd (my_orders_tab env user_id
                                (Some (o_order_id (or_order row))) w))))
       = inventory_batches (committed (server w))
    /\ order_items (committed (server (snd (my_orders_tab env user_id
                                (Some (o_order_id (or_order row))) w))))
       = order_items (committed (server w)).
Proof.
  intros env user_id w rows c row Hfetch Hnd Hin Hshow H1 H2 H3.
  unfold my_orders_tab. rewrite Hfetch.
  rewrite (@pay_buttons_pays env (o_order_id (or_order row)) rows [] (server w) row
             Hnd (fun _ _ _ H => H) Hin Hshow eq_refl H1 H2 H3).
  rewrite (@simulate_pay_now_runs env row (server w) H1 H2 H3). simpl.
  repeat split.
Qed.

Lemma pay_now_pays_witness :
  fst (my_orders_tab (at_time 100) 3 (Some 1%N) placed_world)
  = inr [PaymentSuccessful 1]
  /\ map (fun o => (o_status o, o_modified_at o))
       (orders (committed (server (snd (my_orders_tab (at_time 100) 3 (Some 1%N)
                                          placed_world)))))
     = [(confirmed, Some 100%Z)]
  /\ map (fun p => (p_status p, p_method p))
       (payments (committed (server (snd (my_orders_tab (at_time 100) 3 (Some 1%N)
                                            placed_world)))))
     = [(completed, upi)].
Proof.
  destruct (@pay_now_pays (at_time 100) 3 placed_world _ _
              {| or_order := {| o_order_id := 1; o_customer_id := 3;
                                o_retailer_id := Some 10%N; o_total_amount := 200000;
                                o_status := placed; o_placed_at := 5;
                                o_modified_at := None; o_notes := Some ""%string |};
                 or_payment_status := Some pending; or_payment_id := Some 1%N |}
              eq_refl
              ltac:(repeat constructor; simpl; intuition)
              (or_introl eq_refl) eq_refl eq_refl eq_refl eq_refl)
    as [H1 [H2 [H3 _]]].
  split; [exact H1|]. split.
  - exact (f_equal (map (fun o => (o_status o, o_modified_at o))) H2).
  - exact (f_equal (map (fun p => (p_status p, p_method p))) H3).
Defined.

Lemma place_order_placed env user_id batch_id notes s b :
  (forall i, fault env i = false) ->
  lookup_batch batch_id (committed s) = Some b ->
  b_status b = available ->
  place_order env user_id batch_id notes s
  = (OrderPlaced (next_order_id (autoinc s)),
     {| committed :=
          with_inventory_batches
            (update_where (fun x => N.eqb (b_batch_id x) batch_id)
                          (set_b_status reserved) (inventory_batches (committed s)))
            (with_payments
               (payments (committed s) ++
                [ {| p_payment_id := next_payment_id (autoinc s);
                     p_order_id := next_order_id (autoinc s);
                     p_amount := b_price_per_unit b; p_method := bank_transfer;
                     p_status := pending |} ])
               (with_order_items
                  (order_items (committed s) ++
                   [ {| oi_order_item_id := next_order_item_id (autoinc s);
                        oi_order_id := next_order_id (autoinc s);
                        oi_batch_id := b_batch_id b;
                        oi_blood_type_id := b_blood_type_id b;
                        oi_quantity_ml := b_quantity_ml b;
                        oi_unit_price := b_price_per_unit b;
                        oi_subtotal := b_price_per_unit b |} ])
                  (with_orders
                     (orders (committed s) ++
                      [ {| o_order_id := next_order_id (autoinc s);
                           o_customer_id := user_id;
                           o_retailer_id := Some (b_retailer_id b);
                           o_total_amount := b_price_per_unit b;
                           o_status := placed; o_placed_at := clock env 1;
                           o_modified_at := None; o_notes := Some notes |} ])
                     (committed s))));
        autoinc := bump_payment (bump_order_item (bump_order (autoinc s))) |}).
Proof.
  intros Hf Hb Hst. run_cursor.
  repeat (rewrite ?Hf, ?Hb, ?Hst; simpl). reflexivity.
Qed.

Lemma update_where_app {A} (cond : A -> bool) f (l l' : list A) :
  update_where cond f (l ++ l') = update_where cond f l ++ update_where cond f l'.
Proof. apply map_app. Qed.

(** Reserving and then releasing the one batch of an id gives back the
    table as it was, when that batch was available. *)
Lemma reserve_release next rows b :
  keys_below b_batch_id next rows -> In b rows -> b_status b = available ->
  update_where (fun x => N.eqb (b_batch_id x) (b_batch_id b)) (set_b_status available)
    (update_where (fun x => N.eqb (b_batch_id x) (b_batch_id b)) (set_b_status reserved)
       rows)
  = rows.
Proof.
  intros Hk Hin Hst. unfold update_where. rewrite map_map.
  rewrite <- (map_id rows) at 2. apply map_ext_in. intros x Hx.
  destruct (N.eqb (b_batch_id x) (b_batch_id b)) eqn:E.
  - simpl. rewrite E. apply N.eqb_eq in E.
    assert (x = b) by (eapply keys_inj; eauto). subst x.
    destruct b; simpl in *. subst. reflexivity.
  - rewrite E. reflexivity.
Qed.

Lemma old_orders_untouched next (rows : list Order) st now rid :
  keys_below o_order_id next rows ->
  update_where
    (fun o => N.eqb (o_order_id o) next
              && match o_retailer_id o with
                 | Some r => N.eqb r rid
                 | None => false
                 end)
    (set_o_status st now) rows
  = rows.
Proof.
  intros [_ Hlt]. apply update_where_none. intros o Ho.
  rewrite Forall_forall in Hlt. specialize (Hlt o Ho).
  destruct (N.eqb (o_order_id o) next) eqn:E; [|reflexivity].
  apply N.eqb_eq in E. lia.
Qed.

Lemma old_items_other_order next t :
  keys_below o_order_id next (orders t) ->
  items_reference_orders t ->
  filter (fun it => N.eqb (oi_order_id it) next) (order_items t) = [].
Proof.
  intros [_ Hlt] Hfk. unfold items_reference_orders in Hfk.
  assert (H : forall l,
             (forall it, In it l ->
                         exists o, In o (orders t) /\ o_order_id o = oi_order_id it) ->
             filter (fun it => N.eqb (oi_order_id it) next) l = []).
  { induction l as [|it l IH]; intro Hl; [reflexivity|]. simpl.
    destruct (N.eqb (oi_order_id it) next) eqn:E.
    - apply N.eqb_eq in E. exfalso.
      destruct (Hl it (or_introl eq_refl)) as [o [Ho Hid]].
      rewrite Forall_forall in Hlt. specialize (Hlt o Ho). lia.
    - apply IH. intros it' Hit'. apply Hl. right. exact Hit'. }
  apply H. exact Hfk.
Qed.

(** X18. An order that its retailer cancels gives the batch back: after a
    placement on an available batch and the cancellation of that order by
    the batch's retailer (nothing failing, no item list of that order in the
    cache), the order is [cancelled], the inventory is exactly what it was
    before the placement, and the batch can be ordered again. *)
Theorem cancelled_order_restocks :
  forall env1 env2 env3 user_id user_id' batch_id notes notes' order_id w b,
    well_keyed (server w) ->
    items_reference_orders (committed (server w)) ->
    isdigit batch_id = true ->
    lookup_batch (number_of batch_id) (committed (server w)) = Some b ->
    b_status b = available ->
    isdigit order_id = true ->
    number_of order_id = next_order_id (autoinc (server w)) ->
    cache_get String.eqb order_id (items_cache w) = None ->
    (forall i, fault env1 i = false) ->
    (forall i, fault env2 i = false) ->
    (forall i, fault env3 i = false) ->
    let w1 := snd (submit_order env1 user_id batch_id notes w) in
    let w2 := snd (update_order_status env2 (b_retailer_id b) order_id cancelled w1) in
    fst (submit_order env1 user_id batch_id notes w)
    = OrderPlaced (next_order_id (autoinc (server w)))
    /\ fst (update_order_status env2 (b_retailer_id b) order_id cancelled w1)
       = CancelledAndRestocked (number_of batch_id)
    /\ orders (committed (server w2))
       = orders (committed (server w)) ++
         [ {| o_order_id := next_order_id (autoinc (server w));
              o_customer_id := user_id;
              o_retailer_id := Some (b_retailer_id b);
              o_total_amount := b_price_per_unit b;
              o_status := cancelled; o_placed_at := clock env1 1;
              o_modified_at := Some (clock env2 0); o_notes := Some notes |} ]
    /\ inventory_batches (committed (server w2))
       = inventory_batches (committed (server w))
    /\ fst (submit_order env3 user_id' batch_id notes' w2)
       = OrderPlaced (next_order_id (autoinc (server w)) + 1).
Proof.
  intros env1 env2 env3 user_id user_id' batch_id notes notes' order_id w b
         Hk Hfk Hdb Hb Hst Hdo Hno Hcache Hf1 Hf2 Hf3.
  pose proof (lookup_batch_found _ _ Hb) as [Hbin Hbid].
  destruct Hk as (Hkd & Hkdn & Hkb & Hko & Hki & Hkp).
  assert (E1 : exists s1,
             submit_order env1 user_id batch_id notes w
             = (OrderPlaced (next_order_id (autoinc (server w))), with_server s1 w)
             /\ place_order env1 user_id (number_of batch_id) notes (server w)
                = (OrderPlaced (next_order_id (autoinc (server w))), s1)).
  { eexists. split.
    - unfold submit_order, place_order_form. rewrite Hdb. simpl.
      rewrite (@place_order_placed env1 user_id (number_of batch_id) notes (server w) b
                 Hf1 Hb Hst). reflexivity.
    - apply (@place_order_placed env1 user_id (number_of batch_id) notes (server w) b
               Hf1 Hb Hst). }
  destruct E1 as [s1 [E1 Hs1]].
  rewrite (@place_order_placed env1 user_id (number_of batch_id) notes (server w) b
             Hf1 Hb Hst) in Hs1.
  inversion Hs1 as [Hs1']. clear Hs1.
  assert (Hback :
    update_where (fun x => N.eqb (b_batch_id x) (b_batch_id b))
      (set_b_status available)
      (update_where (fun x => N.eqb (b_batch_id x) (number_of batch_id))
         (set_b_status reserved) (inventory_batches (committed (server w))))
    = inventory_batches (committed (server w))).
  { rewrite <- Hbid. eapply reserve_release; eauto. }
  assert (E2 : exists w2,
             update_order_status env2 (b_retailer_id b) order_id cancelled
               (with_server s1 w)
             = (CancelledAndRestocked (number_of batch_id), w2)
             /\ orders (committed (server w2))
                = orders (committed (server w)) ++
                  [ {| o_order_id := next_order_id (autoinc (server w));
                       o_customer_id := user_id;
                       o_retailer_id := Some (b_retailer_id b);
                       o_total_amount := b_price_per_unit b;
                       o_status := cancelled; o_placed_at := clock env1 1;
                       o_modified_at := Some (clock env2 0);
                       o_notes := Some notes |} ]
             /\ inventory_batches (committed (server w2))
                = inventory_batches (committed (server w))
             /\ next_order_id (autoinc (server w2))
                = (next_order_id (autoinc (server w)) + 1)%N).
  { eexists. unfold update_order_status. rewrite Hdo. simpl.
    unfold execute. rewrite Hf2. simpl.
    unfold fetch_df. simpl. rewrite Hcache, Hf2.
    unfold items_query. rewrite <- Hs1'. simpl.
    rewrite Hno, filter_app.
    rewrite (@old_items_other_order _ _ Hko Hfk). simpl. rewrite N.eqb_refl. simpl.
    rewrite Hf2. simpl. rewrite Hbid.
    split; [reflexivity|]. simpl.
    rewrite update_where_app.
    rewrite (@old_orders_untouched _ _ cancelled (clock env2 0) (b_retailer_id b) Hko).
    simpl. rewrite !N.eqb_refl. simpl.
    split; [reflexivity|].
    split; [|reflexivity]. rewrite Hbid in Hback. exact Hback. }
  destruct E2 as [w2 (E2 & Ho2 & Hb2 & Hn2)].
  cbv zeta. rewrite E1. simpl. rewrite E2. simpl.
  split; [reflexivity|]. split; [reflexivity|].
  split; [exact Ho2|]. split; [exact Hb2|].
  unfold submit_order, place_order_form. rewrite Hdb. simpl.
  destruct (@place_order_succeeds env3 user_id' (number_of batch_id) notes' (server w2)
              b Hf3) as [s3 H3].
  - unfold lookup_batch. rewrite Hb2. exact Hb.
  - exact Hst.
  - rewrite H3. simpl. f_equal. exact Hn2.
Qed.

Lemma cancelled_order_restocks_witness :
  fst (update_order_status (at_time 50) 10 "1" cancelled
         (snd (submit_order (at_time 5) 3 "7" "" (empty_world sample_server))))
  = CancelledAndRestocked 7
  /\ inventory_batches
       (committed (server
          (snd (update_order_status (at_time 50) 10 "1" cancelled
                  (snd (submit_order (at_time 5) 3 "7" "" (empty_world sample_server)))))))
     = [ sample_batch 7 available; sample_batch 8 reserved ]
  /\ fst (submit_order (at_time 60) 4 "7" "urgent"
            (snd (update_order_status (at_time 50) 10 "1" cancelled
                    (snd (submit_order (at_time 5) 3 "7" "" (empty_world sample_server))))))
     = OrderPlaced 2.
Proof.
  destruct (@cancelled_order_restocks (at_time 5) (at_time 50) (at_time 60) 3 4
              "7" "" "urgent" "1" (empty_world sample_server) (sample_batch 7 available)
              sample_server_keyed
              ltac:(intros it H; destruct H)
              eq_refl eq_refl eq_refl eq_refl eq_refl eq_refl
              (fun _ => eq_refl) (fun _ => eq_refl) (fun _ => eq_refl))
    as [_ [H2 [_ [H4 H5]]]].
  split; [exact H2|]. split; [exact H4|exact H5].
Defined.
